(** * The SonarQube webhook resource of the Terraform provider

    A shallow embedding of [sonarqube/resource_sonarqube_webhook.go]: the
    five lifecycle hooks (create, read, update, delete, import) written as
    state-passing functions over the resource data and the remote server,
    followed by the properties of the hooks. *)

From stdpp Require Import base numbers strings list gmap.

Open Scope string_scope.
Open Scope Z_scope.

(** ** Values of the Go runtime the hooks work with *)

(** A Go [error], identified with its message. *)
Definition error := string.

(** [fmt.Errorf(format, err)] for a format that ends in the verb [%+v]:
    the text before the verb followed by the message of [err]. *)
Definition Errorf (format : string) (err : error) : error := format ++ err.

(** [net/url.URL], the fields this file reads or assigns. *)
Record URL := mkURL {
  Scheme : string;
  Host : string;
  Path : string;
  RawQuery : string
}.

Definition withPath (p : string) (u : URL) : URL :=
  {| Scheme := Scheme u; Host := Host u; Path := p; RawQuery := RawQuery u |}.

Definition withRawQuery (q : string) (u : URL) : URL :=
  {| Scheme := Scheme u; Host := Host u; Path := Path u; RawQuery := q |}.

(** [net/url.Values] is [map[string][]string]. *)
Abbreviation Values := (gmap string (list string)).

(** [Values.Add]: append the value to the list stored under the key. *)
Definition Add (key value : string) (v : Values) : Values :=
  <[key := (default [] (v !! key) ++ [value])%list]> v.

(** What the HTTP client is asked: a method and the URL of the call. *)
Record Request := mkRequest {
  Method : string;
  Url : URL
}.

(** [http.Response], the status code and the bytes of the body. *)
Record Response := mkResponse {
  StatusCode : Z;
  Body : string
}.

Definition StatusOK : Z := 200.
Definition StatusNoContent : Z := 204.

(** The HTTP client together with the server behind it: a call either
    fails at the transport level or yields a response, and the remote
    state [W] moves on. *)
Definition Client (W : Type) := Request → W → (error + Response) * W.

(** ** The JSON shapes of the file *)

Record Webhook := mkWebhook {
  Key : string;
  Name : string;
  URL_ : string;
  Secret : string
}.

Record GetWebhooks := mkGetWebhooks {
  Webhooks : list Webhook
}.

Record CreateWebhookResponse := mkCreateWebhookResponse {
  Webhook_ : Webhook
}.

(** ** [schema.ResourceData]

    The resource data of the Terraform SDK restricted to what this
    resource uses: the identifier and string attributes addressed by
    name. *)
Record ResourceData := mkResourceData {
  Id : string;
  attrs : gmap string string
}.

(** [d.Get(key).(string)]: the attribute, or the zero value. *)
Definition Get (d : ResourceData) (key : string) : string :=
  default "" (attrs d !! key).

(** [d.GetOk(key)]: the attribute and whether it is set to something
    other than the zero value. *)
Definition GetOk (d : ResourceData) (key : string) : string * bool :=
  match attrs d !! key with
  | Some v => (v, bool_decide (v ≠ ""))
  | None => ("", false)
  end.

Definition SetId (v : string) (d : ResourceData) : ResourceData :=
  {| Id := v; attrs := attrs d |}.

(** [d.Set(key, value)] *)
Definition Set_ (key value : string) (d : ResourceData) : ResourceData :=
  {| Id := Id d; attrs := <[key := value]> (attrs d) |}.

(** ** What the hooks take from outside this file *)

(** Library functions the hooks call and whose code is not part of the
    resource: [url.Values.Encode], [json.Decoder.Decode] at the two
    response types, and the wording of the error [httpRequestHelper]
    reports for a failed call (from the name of the caller and the
    failure: a transport error or the unexpected response). *)
Class Externals := {
  Encode : Values → string;
  decodeCreateWebhookResponse : string → error + CreateWebhookResponse;
  decodeGetWebhooks : string → error + GetWebhooks;
  requestError : string → error + Response → error
}.

(** Modelled from the spec: ProviderConfiguration, declared in the
    provider's own file; the spec describes it as an object exposing a
    base URL and an authenticated HTTP client, read-only for the hooks
    (each hook works on its own copy of the URL). *)
Record ProviderConfiguration (W : Type) := mkProviderConfiguration {
  httpClient : Client W;
  sonarQubeURL : URL
}.
Arguments httpClient {W} _.
Arguments sonarQubeURL {W} _.
Arguments mkProviderConfiguration {W} _ _.

(** ** State and errors

    A hook mutates the resource data in place, talks to the server and
    returns an [error]; a mutation made before an error is returned
    stays. *)
Definition M (W A : Type) : Type :=
  ResourceData * W → (error + A) * (ResourceData * W).

Definition ret {W A} (a : A) : M W A := λ s, (inr a, s).

Definition fail {W A} (e : error) : M W A := λ s, (inl e, s).

Definition bind {W A B} (c : M W A) (k : A → M W B) : M W B :=
  λ s, match c s with
       | (inl e, s') => (inl e, s')
       | (inr a, s') => k a s'
       end.

Notation "'let*' x ':=' c 'in' k" := (bind c (λ x, k))
  (at level 10, x name, c at level 100, k at level 200).

(** The resource data as it is now. *)
Definition getData {W} : M W ResourceData := λ s, (inr (fst s), s).

(** A mutation of the resource data. *)
Definition modifyData {W} (f : ResourceData → ResourceData) : M W unit :=
  λ s, (inr tt, (f (fst s), snd s)).

(** A call that only involves the server. *)
Definition remote {W A} (c : W → (error + A) * W) : M W A :=
  λ s, let '(r, w') := c (snd s) in (r, (fst s, w')).

(** The result of a library call that returns a value or an error. *)
Definition liftResult {W A} (r : error + A) : M W A :=
  match r with
  | inl err => fail err
  | inr a => ret a
  end.

(** [if err != nil { return wrap(err) }] around a computation. *)
Definition mapError {W A} (wrap : error → error) (c : M W A) : M W A :=
  λ s, match c s with
       | (inl err, s') => (inl (wrap err), s')
       | (inr a, s') => (inr a, s')
       end.

Section Hooks.
Context `{Ext : Externals} {W : Type}.

(** Modelled from the spec: httpRequestHelper, which lives in the
    provider's utility file; it performs the call, validates the expected
    status code, and returns the response on success or a descriptive
    error otherwise. *)
Definition httpRequestHelper (client : Client W) (method : string) (url : URL)
    (expectedResponseCode : Z) (errormsg : string) : W → (error + Response) * W :=
  λ w,
    match client (mkRequest method url) w with
    | (inl err, w') => (inl (requestError errormsg (inl err)), w')
    | (inr resp, w') =>
        if decide (StatusCode resp = expectedResponseCode)
        then (inr resp, w')
        else (inl (requestError errormsg (inr resp)), w')
    end.

(** The loop of [resourceSonarqubeWebhookRead] over the decoded list: the
    data after the loop and the flag [webhookFound]. The first entry whose
    key is the identifier is copied into the data and ends the loop. *)
Fixpoint scanWebhooks (webhooks : list Webhook) (d : ResourceData)
    : ResourceData * bool :=
  match webhooks with
  | [] => (d, false)
  | value :: rest =>
      if decide (Id d = Key value) then
        (Set_ "secret" (Secret value)
           (Set_ "url" (URL_ value)
              (Set_ "name" (Name value)
                 (Set_ "key" (Key value)
                    (SetId (Key value) d)))),
         true)
      else scanWebhooks rest d
  end.

Definition rangeWebhooks (webhooks : list Webhook) : M W bool :=
  λ s, let '(d', webhookFound) := scanWebhooks webhooks (fst s) in
       (inr webhookFound, (d', snd s)).

Definition resourceSonarqubeWebhookRead (m : ProviderConfiguration W) : M W unit :=
  let* d := getData in
  let sonarQubeURL := withPath "api/webhooks/list" (sonarQubeURL m) in
  let sonarQubeURL :=
    match GetOk d "project" with
    | (project, true) =>
        withRawQuery (Encode {[ "project" := [project] ]}) sonarQubeURL
    | (_, false) => sonarQubeURL
    end in
  let* resp := remote (httpRequestHelper (httpClient m) "GET" sonarQubeURL
                       StatusOK "resourceSonarqubeWebhookRead") in
  let* getWebhooks :=
    mapError (Errorf "resourceSonarqubeWebhookRead: Failed to decode json into struct: ")
      (liftResult (decodeGetWebhooks (Body resp))) in
  let* webhookFound := rangeWebhooks (Webhooks getWebhooks) in
  if negb webhookFound then modifyData (SetId "") else ret tt.

Definition resourceSonarqubeWebhookCreate (m : ProviderConfiguration W) : M W unit :=
  let* d := getData in
  let sonarQubeURL := withPath "api/webhooks/create" (sonarQubeURL m) in
  let rawQuery : Values :=
    {[ "name" := [Get d "name"]; "url" := [Get d "url"] ]} in
  let rawQuery :=
    match GetOk d "project" with
    | (project, true) => Add "project" project rawQuery
    | (_, false) => rawQuery
    end in
  let rawQuery :=
    match GetOk d "secret" with
    | (secret, true) => Add "secret" secret rawQuery
    | (_, false) => rawQuery
    end in
  let sonarQubeURL := withRawQuery (Encode rawQuery) sonarQubeURL in
  let* resp := remote (httpRequestHelper (httpClient m) "POST" sonarQubeURL
                       StatusOK "resourceSonarqubeWebhookCreate") in
  let* webhookResponse :=
    mapError (Errorf "resourceSonarqubeWebhookCreate; Failed to decode json into struct: ")
      (liftResult (decodeCreateWebhookResponse (Body resp))) in
  if decide (Key (Webhook_ webhookResponse) = "") then
    fail "resourceSonarqubeWebhookCreate: Create response did not contain the webhook's key"
  else
    let* _ := modifyData (SetId (Key (Webhook_ webhookResponse))) in
    resourceSonarqubeWebhookRead m.

Definition resourceSonarqubeWebhookUpdate (m : ProviderConfiguration W) : M W unit :=
  let* d := getData in
  let sonarQubeURL := withPath "api/webhooks/update" (sonarQubeURL m) in
  let rawQuery : Values :=
    {[ "webhook" := [Id d]; "name" := [Get d "name"]; "url" := [Get d "url"] ]} in
  let rawQuery :=
    match GetOk d "project" with
    | (project, true) => Add "project" project rawQuery
    | (_, false) => rawQuery
    end in
  let rawQuery :=
    match GetOk d "secret" with
    | (secret, true) => Add "secret" secret rawQuery
    | (_, false) => rawQuery
    end in
  let sonarQubeURL := withRawQuery (Encode rawQuery) sonarQubeURL in
  let* resp :=
    mapError (Errorf "Error updating Sonarqube webhook: ")
      (remote (httpRequestHelper (httpClient m) "POST" sonarQubeURL
                 StatusNoContent "resourceSonarqubeWebhookUpdate")) in
  resourceSonarqubeWebhookRead m.

Definition resourceSonarqubeWebhookDelete (m : ProviderConfiguration W) : M W unit :=
  let* d := getData in
  let sonarQubeURL := withPath "api/webhooks/delete" (sonarQubeURL m) in
  let sonarQubeURL :=
    withRawQuery (Encode {[ "webhook" := [Id d] ]}) sonarQubeURL in
  let* resp :=
    mapError (Errorf "resourceSonarqubeWebhookDelete: Failed to delete webhook: ")
      (remote (httpRequestHelper (httpClient m) "POST" sonarQubeURL
                 StatusNoContent "resourceSonarqubeWebhookDelete")) in
  ret tt.

(** The importer returns the slice holding the one resource data it was
    given, as [resourceSonarqubeWebhookRead] left it. *)
Definition resourceSonarqubeWebhookImport (m : ProviderConfiguration W)
    : M W (list ResourceData) :=
  let* _ := resourceSonarqubeWebhookRead m in
  let* d := getData in
  ret [d].

End Hooks.

(** ** Observing the calls of a hook

    A client that behaves as [client] and appends every request it is
    asked to a log kept next to the remote state. *)
Definition recording {W} (client : Client W) : Client (W * list Request) :=
  λ req wl,
    let '(r, w') := client req (fst wl) in
    (r, (w', (snd wl ++ [req])%list)).

Definition recorded {W} (m : ProviderConfiguration W)
    : ProviderConfiguration (W * list Request) :=
  {| httpClient := recording (httpClient m); sonarQubeURL := sonarQubeURL m |}.

(** The requests a hook sends, in order, when run on data [d] against
    the server state [w]. *)
Definition requestsOf {W A}
    (hook : ∀ W', ProviderConfiguration W' → M W' A)
    (m : ProviderConfiguration W) (d : ResourceData) (w : W) : list Request :=
  snd (snd (snd (hook _ (recorded m) (d, (w, []))))).

(** ** The requests as the interface table describes them *)

Section Described.
Context `{Ext : Externals} {W : Type}.

(** An optional parameter: present exactly when the field is set. *)
Definition optionalParam (d : ResourceData) (field : string) (q : Values) : Values :=
  if snd (GetOk d field) then <[field := [fst (GetOk d field)]]> q else q.

(** List (used by Read): GET api/webhooks/list, plus [project] when set.
    Without a project the query of the configured URL goes out as it is. *)
Definition listRequest (m : ProviderConfiguration W) (d : ResourceData) : Request :=
  {| Method := "GET";
     Url := {| Scheme := Scheme (sonarQubeURL m);
               Host := Host (sonarQubeURL m);
               Path := "api/webhooks/list";
               RawQuery := if snd (GetOk d "project")
                           then Encode {[ "project" := [fst (GetOk d "project")] ]}
                           else RawQuery (sonarQubeURL m) |} |}.

(** Update: POST api/webhooks/update with [webhook], [name] and [url],
    plus [project] and [secret] when set. *)
Definition updateParams (d : ResourceData) : Values :=
  optionalParam d "secret"
    (optionalParam d "project"
       (<["webhook" := [Id d]]>
          (<["name" := [Get d "name"]]>
             (<["url" := [Get d "url"]]> ∅)))).

Definition updateRequest (m : ProviderConfiguration W) (d : ResourceData) : Request :=
  {| Method := "POST";
     Url := {| Scheme := Scheme (sonarQubeURL m);
               Host := Host (sonarQubeURL m);
               Path := "api/webhooks/update";
               RawQuery := Encode (updateParams d) |} |}.

(** Create: POST api/webhooks/create with [name] and [url], plus
    [project] and [secret] when set. *)
Definition createParams (d : ResourceData) : Values :=
  optionalParam d "secret"
    (optionalParam d "project"
       (<["name" := [Get d "name"]]>
          (<["url" := [Get d "url"]]> ∅))).

Definition createRequest (m : ProviderConfiguration W) (d : ResourceData) : Request :=
  {| Method := "POST";
     Url := {| Scheme := Scheme (sonarQubeURL m);
               Host := Host (sonarQubeURL m);
               Path := "api/webhooks/create";
               RawQuery := Encode (createParams d) |} |}.

(** Delete: POST api/webhooks/delete with [webhook]. *)
Definition deleteRequest (m : ProviderConfiguration W) (d : ResourceData) : Request :=
  {| Method := "POST";
     Url := {| Scheme := Scheme (sonarQubeURL m);
               Host := Host (sonarQubeURL m);
               Path := "api/webhooks/delete";
               RawQuery := Encode {[ "webhook" := [Id d] ]} |} |}.

(** The call answered with the expected status. *)
Definition answered (m : ProviderConfiguration W) (req : Request) (w : W)
    (status : Z) (resp : Response) (w' : W) : Prop :=
  httpClient m req w = (inr resp, w') ∧ StatusCode resp = status.

(** The call not answered with the expected status: a transport failure
    or a response with another status code. *)
Definition refused (m : ProviderConfiguration W) (req : Request) (w : W)
    (status : Z) (w' : W) : Prop :=
  (∃ err, httpClient m req w = (inl err, w')) ∨
  (∃ resp, httpClient m req w = (inr resp, w') ∧ StatusCode resp ≠ status).

(** The resource data with the four fields of a list entry copied in. *)
Definition populated (value : Webhook) (d : ResourceData) : ResourceData :=
  {| Id := Key value;
     attrs := <["secret" := Secret value]>
                (<["url" := URL_ value]>
                   (<["name" := Name value]>
                      (<["key" := Key value]> (attrs d)))) |}.

End Described.

(** ** A scripted server

    A remote state that is the list of answers still to be given, one per
    call, and library functions that read a few fixed bodies. *)
Module Demo.

Definition World := list (error + Response).

Definition client : Client World :=
  λ _ w,
    match w with
    | [] => (inl "connection refused", [])
    | r :: w' => (r, w')
    end.

Definition config : ProviderConfiguration World :=
  {| httpClient := client;
     sonarQubeURL := {| Scheme := "https"; Host := "sonar.example";
                        Path := ""; RawQuery := "" |} |}.

Definition hook : Webhook :=
  {| Key := "AV1"; Name := "build-notify";
     URL_ := "https://ci.example/hook"; Secret := "" |}.

Definition other : Webhook :=
  {| Key := "AV2"; Name := "deploy"; URL_ := "https://cd.example/hook";
     Secret := "s3" |}.

Definition pairs (v : Values) : string :=
  foldr (λ kv acc, kv.1 +:+ "=" +:+ foldr String.append "" kv.2 +:+ "&" +:+ acc)
        "" (map_to_list v).

#[export] Instance externals : Externals :=
  {| Encode := pairs;
     decodeCreateWebhookResponse := λ body,
       if decide (body = "created AV1") then inr {| Webhook_ := hook |}
       else if decide (body = "created") then
         inr {| Webhook_ := {| Key := ""; Name := "build-notify";
                               URL_ := "https://ci.example/hook"; Secret := "" |} |}
       else inl "unexpected end of JSON input";
     decodeGetWebhooks := λ body,
       if decide (body = "AV2 AV1") then inr {| Webhooks := [other; hook] |}
       else if decide (body = "AV2") then inr {| Webhooks := [other] |}
       else inl "unexpected end of JSON input";
     requestError := λ errormsg failure,
       match failure with
       | inl err => errormsg +:+ ": " +:+ err
       | inr resp => errormsg +:+ ": unexpected status"
       end |}.

(** The declared resource before creation, and the same once it carries
    the identifier of a webhook. *)
Definition declared : ResourceData :=
  {| Id := "";
     attrs := <["name" := "Build Notify"]> (<["url" := "https://ci.example/hook"]> ∅) |}.

Definition present : ResourceData := SetId "AV1" declared.

Definition ok (status : Z) (body : string) : error + Response :=
  inr {| StatusCode := status; Body := body |}.

End Demo.

(** ** The resource and its schema *)

(** [schema.ValueType] *)
Inductive ValueType :=
  | TypeBool | TypeInt | TypeFloat | TypeString | TypeList | TypeMap | TypeSet.

(** [schema.Schema], the settings this resource gives its fields; a
    setting left out of a literal is [false]. *)
Record Schema := mkSchema {
  Type_ : ValueType;
  Optional : bool;
  Required : bool;
  Computed : bool;
  ForceNew : bool
}.

Record ResourceImporter (W : Type) := mkResourceImporter {
  State : ProviderConfiguration W → M W (list ResourceData)
}.
Arguments State {W} _.
Arguments mkResourceImporter {W} _.

(** [schema.Resource], the fields this file fills in. *)
Record Resource (W : Type) := mkResource {
  Create : ProviderConfiguration W → M W unit;
  Read : ProviderConfiguration W → M W unit;
  Update : ProviderConfiguration W → M W unit;
  Delete : ProviderConfiguration W → M W unit;
  Importer : ResourceImporter W;
  Schema_ : gmap string Schema
}.
Arguments Create {W} _.
Arguments Read {W} _.
Arguments Update {W} _.
Arguments Delete {W} _.
Arguments Importer {W} _.
Arguments Schema_ {W} _.

Section TheResource.
Context `{Ext : Externals} {W : Type}.

Definition resourceSonarqubeWebhook : Resource W :=
  {| Create := resourceSonarqubeWebhookCreate;
     Read := resourceSonarqubeWebhookRead;
     Update := resourceSonarqubeWebhookUpdate;
     Delete := resourceSonarqubeWebhookDelete;
     Importer := {| State := resourceSonarqubeWebhookImport |};
     Schema_ :=
       {[ "key" := {| Type_ := TypeString; Optional := true; Required := false;
                      Computed := true; ForceNew := false |};
          "project" := {| Type_ := TypeString; Optional := true; Required := false;
                          Computed := false; ForceNew := true |};
          "name" := {| Type_ := TypeString; Optional := false; Required := true;
                       Computed := false; ForceNew := false |};
          "url" := {| Type_ := TypeString; Optional := false; Required := true;
                      Computed := false; ForceNew := false |};
          "secret" := {| Type_ := TypeString; Optional := true; Required := false;
                         Computed := false; ForceNew := false |} ]} |}.

End TheResource.

(** ** Comparing the resource data before and after a hook *)

(** The four attributes Read copies from a list entry. *)
Definition copiedFields : list string := ["key"; "name"; "url"; "secret"].

(** Every attribute other than the four copied ones is as before. *)
Definition sameElsewhere (d d' : ResourceData) : Prop :=
  ∀ field, field ∉ copiedFields → attrs d' !! field = attrs d !! field.

(** The data after a run of a hook. *)
Definition dataAfter {W A} (run : (error + A) * (ResourceData * W)) : ResourceData :=
  fst (snd run).

(** ** Further scripted data *)
Module Scenarios.

(** A resource that carries a project and a locally configured secret. *)
Definition scoped : ResourceData :=
  Set_ "secret" "local-secret" (Set_ "project" "my-project" Demo.present).

(** A provider configuration whose URL already carries a query, the one
    that encodes a project parameter. *)
Definition pinned : ProviderConfiguration Demo.World :=
  {| httpClient := Demo.client;
     sonarQubeURL :=
       {| Scheme := "https"; Host := "sonar.example"; Path := "";
          RawQuery := Demo.pairs {[ "project" := ["someone-elses"] ]} |} |}.

End Scenarios.

(** ** Properties of the hooks *)

Section Properties.
Context `{Ext : Externals}.
Implicit Types (d : ResourceData).

(** *** The request helper *)

Lemma httpRequestHelper_answered {W} (m : ProviderConfiguration W) req w status resp w' errormsg :
  answered m req w status resp w' →
  httpRequestHelper (httpClient m) (Method req) (Url req) status errormsg w
  = (inr resp, w').
Proof.
  intros [Hcall Hstatus]. unfold httpRequestHelper.
  destruct req as [method url]; cbn [Method Url].
  rewrite Hcall. destruct (decide (StatusCode resp = status)); [done | contradiction].
Qed.

Lemma httpRequestHelper_refused {W} (m : ProviderConfiguration W) req w status w' errormsg :
  refused m req w status w' →
  ∃ failure,
    httpRequestHelper (httpClient m) (Method req) (Url req) status errormsg w
    = (inl (requestError errormsg failure), w').
Proof.
  unfold httpRequestHelper. destruct req as [method url]; cbn [Method Url].
  intros [[err Hcall] | [resp [Hcall Hstatus]]]; rewrite Hcall.
  - by exists (inl err).
  - destruct (decide (StatusCode resp = status)); [contradiction | by exists (inr resp)].
Qed.

(** The helper on a recording client: the same outcome, one more entry
    in the log. *)
Lemma httpRequestHelper_recording {W} (client : Client W) method url status errormsg w log :
  httpRequestHelper (recording client) method url status errormsg (w, log)
  = let '(r, w') := httpRequestHelper client method url status errormsg w in
    (r, (w', (log ++ [mkRequest method url])%list)).
Proof.
  unfold httpRequestHelper, recording; cbn [fst snd].
  destruct (client (mkRequest method url) w) as [[err | resp] w']; [done |].
  by destruct (decide (StatusCode resp = status)).
Qed.

(** *** The loop of Read *)

Lemma scanWebhooks_absent webhooks d :
  Forall (λ value, Key value ≠ Id d) webhooks →
  scanWebhooks webhooks d = (d, false).
Proof.
  induction 1 as [| value rest Hne _ IH]; cbn [scanWebhooks]; [done |].
  destruct (decide (Id d = Key value)) as [Heq | _]; [by symmetry in Heq | exact IH].
Qed.

Lemma scanWebhooks_first before value after d :
  Forall (λ x, Key x ≠ Id d) before →
  Key value = Id d →
  scanWebhooks (before ++ value :: after) d = (populated value d, true).
Proof.
  intros Hbefore Hkey.
  induction Hbefore as [| x rest Hne _ IH]; cbn [scanWebhooks app].
  - destruct (decide (Id d = Key value)) as [_ | Hne]; [done | by symmetry in Hkey].
  - destruct (decide (Id d = Key x)) as [Heq | _]; [by symmetry in Heq | exact IH].
Qed.

(** The loop either finds nothing and leaves the data alone, or copies
    one entry whose key is the identifier. *)
Lemma scanWebhooks_cases webhooks d :
  (scanWebhooks webhooks d = (d, false) ∧
   Forall (λ value, Key value ≠ Id d) webhooks) ∨
  (∃ value, value ∈ webhooks ∧ Key value = Id d ∧
            scanWebhooks webhooks d = (populated value d, true)).
Proof.
  induction webhooks as [| x rest IH]; cbn [scanWebhooks].
  - left. by split.
  - destruct (decide (Id d = Key x)) as [Heq | Hne].
    + right. exists x. split_and!; [apply list_elem_of_here | done | done].
    + destruct IH as [[Hscan Hall] | (value & Hin & Hkey & Hscan)].
      * left. split; [done |]. constructor; [congruence | done].
      * right. exists value. split_and!; [by apply list_elem_of_further | done | done].
Qed.

(** *** Read, one equation *)

Lemma Read_eq {W} (m : ProviderConfiguration W) d w :
  resourceSonarqubeWebhookRead m (d, w)
  = match httpRequestHelper (httpClient m) "GET" (Url (listRequest m d))
            StatusOK "resourceSonarqubeWebhookRead" w with
    | (inl err, w') => (inl err, (d, w'))
    | (inr resp, w') =>
        match decodeGetWebhooks (Body resp) with
        | inl err =>
            (inl (Errorf "resourceSonarqubeWebhookRead: Failed to decode json into struct: " err),
             (d, w'))
        | inr getWebhooks =>
            match scanWebhooks (Webhooks getWebhooks) d with
            | (d', true) => (inr tt, (d', w'))
            | (d', false) => (inr tt, (SetId "" d', w'))
            end
        end
    end.
Proof.
  unfold resourceSonarqubeWebhookRead, listRequest.
  unfold bind, getData, remote, mapError, liftResult, rangeWebhooks, modifyData, ret, fail.
  cbn [fst snd Url].
  destruct (GetOk d "project") as [project [|]]; cbn [fst snd];
    unfold withRawQuery, withPath; cbn [Scheme Host Path RawQuery];
    match goal with
    | |- context [httpRequestHelper ?c ?me ?u ?st ?msg w] =>
        destruct (httpRequestHelper c me u st msg w) as [[err | resp] w']
    end; try done;
    (destruct (decodeGetWebhooks (Body resp)) as [err | getWebhooks]; [done |]);
    cbn [fst snd];
    by destruct (scanWebhooks (Webhooks getWebhooks) d) as [d' [|]].
Qed.

(** Read on a recording client: the same outcome, and the log grows by
    the one list request. *)
Lemma Read_recorded {W} (m : ProviderConfiguration W) d w log :
  resourceSonarqubeWebhookRead (recorded m) (d, (w, log))
  = match resourceSonarqubeWebhookRead m (d, w) with
    | (r, (d', w')) => (r, (d', (w', (log ++ [listRequest m d])%list)))
    end.
Proof.
  rewrite (Read_eq m), (Read_eq (recorded m)).
  change (listRequest (recorded m) d) with (listRequest m d).
  change (httpClient (recorded m)) with (recording (httpClient m)).
  rewrite httpRequestHelper_recording.
  destruct (httpRequestHelper (httpClient m) "GET" (Url (listRequest m d))
              StatusOK "resourceSonarqubeWebhookRead" w) as [[err | resp] w']; [done |].
  destruct (decodeGetWebhooks (Body resp)) as [err | getWebhooks]; [done |].
  by destruct (scanWebhooks (Webhooks getWebhooks) d) as [d' [|]].
Qed.

(** Read with the list in hand, the identifier absent from it. *)
Lemma Read_absent {W} (m : ProviderConfiguration W) d w resp w' getWebhooks :
  answered m (listRequest m d) w StatusOK resp w' →
  decodeGetWebhooks (Body resp) = inr getWebhooks →
  Forall (λ value, Key value ≠ Id d) (Webhooks getWebhooks) →
  resourceSonarqubeWebhookRead m (d, w) = (inr tt, (SetId "" d, w')).
Proof.
  intros Hcall Hdecode Habsent. rewrite Read_eq.
  rewrite (httpRequestHelper_answered m (listRequest m d) w StatusOK resp w' _ Hcall).
  rewrite Hdecode. by rewrite (scanWebhooks_absent _ _ Habsent).
Qed.

(** Read with the list in hand, the identifier first met at [value]. *)
Lemma Read_found {W} (m : ProviderConfiguration W) d w resp w' getWebhooks before value after :
  answered m (listRequest m d) w StatusOK resp w' →
  decodeGetWebhooks (Body resp) = inr getWebhooks →
  Webhooks getWebhooks = (before ++ value :: after)%list →
  Forall (λ x, Key x ≠ Id d) before →
  Key value = Id d →
  resourceSonarqubeWebhookRead m (d, w) = (inr tt, (populated value d, w')).
Proof.
  intros Hcall Hdecode Hlist Hbefore Hkey. rewrite Read_eq.
  rewrite (httpRequestHelper_answered m (listRequest m d) w StatusOK resp w' _ Hcall).
  rewrite Hdecode, Hlist. by rewrite (scanWebhooks_first _ _ _ _ Hbefore Hkey).
Qed.

Lemma populated_fields value d :
  Id (populated value d) = Key value ∧
  Get (populated value d) "key" = Key value ∧
  Get (populated value d) "name" = Name value ∧
  Get (populated value d) "url" = URL_ value ∧
  Get (populated value d) "secret" = Secret value.
Proof.
  unfold Get, populated; cbn [Id attrs].
  split_and!; [done | | | |]; by simplify_map_eq.
Qed.

(** The fields Read does not write, [project] among them, keep their
    values. *)
Lemma populated_other value d field :
  field ∉ ["key"; "name"; "url"; "secret"] →
  attrs (populated value d) !! field = attrs d !! field.
Proof.
  intros Hfield. unfold populated; cbn [attrs].
  rewrite !lookup_insert_ne; [done | | | |];
    intros <-; apply Hfield; set_solver.
Qed.

(** *** The queries of Create and Update *)

Lemma Add_fresh key value (v : Values) :
  v !! key = None → Add key value v = <[key := [value]]> v.
Proof. intros Hnone. unfold Add. by rewrite Hnone. Qed.

Lemma optionalParam_Add d field (q : Values) :
  q !! field = None →
  match GetOk d field with
  | (value, true) => Add field value q
  | (_, false) => q
  end = optionalParam d field q.
Proof.
  intros Hnone. unfold optionalParam.
  destruct (GetOk d field) as [value [|]]; cbn [fst snd]; [by apply Add_fresh | done].
Qed.

Lemma optionalParam_lookup_ne d field other (q : Values) :
  field ≠ other → optionalParam d field q !! other = q !! other.
Proof.
  intros Hne. unfold optionalParam.
  destruct (snd (GetOk d field)); [by rewrite lookup_insert_ne | done].
Qed.

(** A key that a literal query with other keys does not hold. *)
Ltac fresh_key :=
  rewrite ?optionalParam_lookup_ne by done;
  rewrite ?lookup_insert_ne by done;
  first [ by apply lookup_singleton_ne | by apply lookup_empty ].

(** The parameters of Update: the three that are always sent, and the
    two optional ones, sent exactly when the field is set. *)
Lemma updateParams_lookup d :
  updateParams d !! "webhook" = Some [Id d] ∧
  updateParams d !! "name" = Some [Get d "name"] ∧
  updateParams d !! "url" = Some [Get d "url"] ∧
  updateParams d !! "project"
    = (if snd (GetOk d "project") then Some [fst (GetOk d "project")] else None) ∧
  updateParams d !! "secret"
    = (if snd (GetOk d "secret") then Some [fst (GetOk d "secret")] else None).
Proof.
  unfold updateParams.
  split_and!.
  - by rewrite !optionalParam_lookup_ne.
  - by rewrite !optionalParam_lookup_ne.
  - by rewrite !optionalParam_lookup_ne.
  - rewrite optionalParam_lookup_ne by done. unfold optionalParam.
    destruct (snd (GetOk d "project")); [by rewrite lookup_insert_eq | done].
  - unfold optionalParam at 1.
    destruct (snd (GetOk d "secret")); [by rewrite lookup_insert_eq |].
    by rewrite optionalParam_lookup_ne.
Qed.

(** *** Create, Update, Delete and Import, one equation each *)

Lemma Create_eq {W} (m : ProviderConfiguration W) d w :
  resourceSonarqubeWebhookCreate m (d, w)
  = match httpRequestHelper (httpClient m) "POST" (Url (createRequest m d))
            StatusOK "resourceSonarqubeWebhookCreate" w with
    | (inl err, w') => (inl err, (d, w'))
    | (inr resp, w') =>
        match decodeCreateWebhookResponse (Body resp) with
        | inl err =>
            (inl (Errorf "resourceSonarqubeWebhookCreate; Failed to decode json into struct: " err),
             (d, w'))
        | inr webhookResponse =>
            if decide (Key (Webhook_ webhookResponse) = "") then
              (inl "resourceSonarqubeWebhookCreate: Create response did not contain the webhook's key",
               (d, w'))
            else
              resourceSonarqubeWebhookRead m
                (SetId (Key (Webhook_ webhookResponse)) d, w')
        end
    end.
Proof.
  unfold resourceSonarqubeWebhookCreate, createRequest, createParams.
  unfold bind at 1 2. unfold getData at 1. cbn [fst snd Url].
  rewrite (optionalParam_Add d "project") by fresh_key.
  rewrite (optionalParam_Add d "secret") by fresh_key.
  rewrite <- insert_empty.
  unfold withRawQuery, withPath, remote; cbn [Scheme Host Path RawQuery fst snd].
  match goal with
  | |- context [httpRequestHelper ?c ?me ?u ?st ?msg w] =>
      destruct (httpRequestHelper c me u st msg w) as [[err | resp] w']
  end; [done |].
  unfold bind, mapError, liftResult, fail, ret.
  destruct (decodeCreateWebhookResponse (Body resp)) as [err | webhookResponse]; [done |].
  by destruct (decide (Key (Webhook_ webhookResponse) = "")).
Qed.

Lemma Update_eq {W} (m : ProviderConfiguration W) d w :
  resourceSonarqubeWebhookUpdate m (d, w)
  = match httpRequestHelper (httpClient m) "POST" (Url (updateRequest m d))
            StatusNoContent "resourceSonarqubeWebhookUpdate" w with
    | (inl err, w') =>
        (inl (Errorf "Error updating Sonarqube webhook: " err), (d, w'))
    | (inr _, w') => resourceSonarqubeWebhookRead m (d, w')
    end.
Proof.
  unfold resourceSonarqubeWebhookUpdate, updateRequest, updateParams.
  unfold bind at 1 2. unfold getData at 1. cbn [fst snd Url].
  rewrite (optionalParam_Add d "project") by fresh_key.
  rewrite (optionalParam_Add d "secret") by fresh_key.
  rewrite <- insert_empty.
  unfold withRawQuery, withPath, mapError, remote;
    cbn [Scheme Host Path RawQuery fst snd].
  match goal with
  | |- context [httpRequestHelper ?c ?me ?u ?st ?msg w] =>
      by destruct (httpRequestHelper c me u st msg w) as [[err | resp] w']
  end.
Qed.

Lemma Delete_eq {W} (m : ProviderConfiguration W) d w :
  resourceSonarqubeWebhookDelete m (d, w)
  = match httpRequestHelper (httpClient m) "POST" (Url (deleteRequest m d))
            StatusNoContent "resourceSonarqubeWebhookDelete" w with
    | (inl err, w') =>
        (inl (Errorf "resourceSonarqubeWebhookDelete: Failed to delete webhook: " err),
         (d, w'))
    | (inr _, w') => (inr tt, (d, w'))
    end.
Proof.
  unfold resourceSonarqubeWebhookDelete, deleteRequest.
  unfold bind, getData, mapError, remote, ret, withRawQuery, withPath;
    cbn [Scheme Host Path RawQuery fst snd Url].
  match goal with
  | |- context [httpRequestHelper ?c ?me ?u ?st ?msg w] =>
      by destruct (httpRequestHelper c me u st msg w) as [[err | resp] w']
  end.
Qed.

Lemma Import_eq {W} (m : ProviderConfiguration W) (s : ResourceData * W) :
  resourceSonarqubeWebhookImport m s
  = match resourceSonarqubeWebhookRead m s with
    | (inl err, s') => (inl err, s')
    | (inr _, s') => (inr [fst s'], s')
    end.
Proof.
  unfold resourceSonarqubeWebhookImport, bind, getData, ret.
  by destruct (resourceSonarqubeWebhookRead m s) as [[err | []] s'].
Qed.

(** Update on a recording client. *)
Lemma Update_recorded {W} (m : ProviderConfiguration W) d w :
  requestsOf (λ W', resourceSonarqubeWebhookUpdate) m d w
  = match httpRequestHelper (httpClient m) "POST" (Url (updateRequest m d))
            StatusNoContent "resourceSonarqubeWebhookUpdate" w with
    | (inl _, _) => [updateRequest m d]
    | (inr _, _) => [updateRequest m d; listRequest m d]
    end.
Proof.
  unfold requestsOf. rewrite (Update_eq (recorded m)).
  change (updateRequest (recorded m) d) with (updateRequest m d).
  change (httpClient (recorded m)) with (recording (httpClient m)).
  rewrite httpRequestHelper_recording.
  destruct (httpRequestHelper (httpClient m) "POST" (Url (updateRequest m d))
              StatusNoContent "resourceSonarqubeWebhookUpdate" w) as [[err | resp] w'];
    [done |].
  rewrite Read_recorded.
  by destruct (resourceSonarqubeWebhookRead m (d, w')) as [r [d' w'']].
Qed.


(** An error of Read leaves the resource data as it was. *)
Lemma Read_error_unchanged {W} (m : ProviderConfiguration W) d w err d' w' :
  resourceSonarqubeWebhookRead m (d, w) = (inl err, (d', w')) → d' = d.
Proof.
  rewrite Read_eq.
  destruct (httpRequestHelper (httpClient m) "GET" (Url (listRequest m d))
              StatusOK "resourceSonarqubeWebhookRead" w) as [[err' | resp] w''];
    [congruence |].
  destruct (decodeGetWebhooks (Body resp)) as [err' | getWebhooks]; [congruence |].
  by destruct (scanWebhooks (Webhooks getWebhooks) d) as [d'' [|]].
Qed.

(** Read with the list in hand, the identifier somewhere in it. *)
Lemma Read_present {W} (m : ProviderConfiguration W) d w resp w' getWebhooks :
  answered m (listRequest m d) w StatusOK resp w' →
  decodeGetWebhooks (Body resp) = inr getWebhooks →
  Exists (λ value, Key value = Id d) (Webhooks getWebhooks) →
  ∃ value, value ∈ Webhooks getWebhooks ∧ Key value = Id d ∧
    resourceSonarqubeWebhookRead m (d, w) = (inr tt, (populated value d, w')).
Proof.
  intros Hcall Hdecode Hex. rewrite Read_eq.
  rewrite (httpRequestHelper_answered m (listRequest m d) w StatusOK resp w' _ Hcall).
  rewrite Hdecode.
  destruct (scanWebhooks_cases (Webhooks getWebhooks) d)
    as [[_ Hall] | (value & Hin & Hkey & Hscan)].
  - apply Exists_exists in Hex as (value & Hin & Hkey).
    rewrite Forall_forall in Hall. by destruct (Hall value Hin).
  - exists value. by rewrite Hscan.
Qed.

(** *** The lifecycle properties *)

(** C1. Read, given a list response in which no entry has the current
    identifier as its key, clears the identifier and returns success
    rather than an error. *)
Theorem C1_read_absent_clears_identifier
    {W} (m : ProviderConfiguration W) d w resp w' getWebhooks :
  answered m (listRequest m d) w StatusOK resp w' →
  decodeGetWebhooks (Body resp) = inr getWebhooks →
  Forall (λ value, Key value ≠ Id d) (Webhooks getWebhooks) →
  resourceSonarqubeWebhookRead m (d, w) = (inr tt, (SetId "" d, w'))
  ∧ Id (SetId "" d) = "".
Proof.
  intros Hcall Hdecode Habsent. split; [| done].
  by apply (Read_absent m d w resp w' getWebhooks).
Qed.

(** C2. Create, given a response that decodes but whose webhook key is
    the empty string, returns the error that names the missing key and
    leaves the resource data, identifier included, as it was. *)
Theorem C2_create_empty_key_is_error
    {W} (m : ProviderConfiguration W) d w resp w' webhookResponse :
  answered m (createRequest m d) w StatusOK resp w' →
  decodeCreateWebhookResponse (Body resp) = inr webhookResponse →
  Key (Webhook_ webhookResponse) = "" →
  resourceSonarqubeWebhookCreate m (d, w)
  = (inl "resourceSonarqubeWebhookCreate: Create response did not contain the webhook's key",
     (d, w')).
Proof.
  intros Hcall Hdecode Hkey. rewrite Create_eq.
  rewrite (httpRequestHelper_answered m (createRequest m d) w StatusOK resp w' _ Hcall).
  rewrite Hdecode. by destruct (decide (Key (Webhook_ webhookResponse) = "")).
Qed.


(** C4. Update, when the POST fails (transport error or a status other
    than 204), returns the wrapped error and leaves the resource data
    unchanged; more generally no error of Update changes the resource
    data. When the POST succeeds Update goes on as Read does on the
    unchanged data: the identifier stays set when the list response holds
    an entry with that key, and is cleared, with success returned, when it
    holds none. *)
Theorem C4_update_failure_or_read
    {W} (m : ProviderConfiguration W) d w :
  (∀ w', refused m (updateRequest m d) w StatusNoContent w' →
     ∃ failure,
       resourceSonarqubeWebhookUpdate m (d, w)
       = (inl (Errorf "Error updating Sonarqube webhook: "
                 (requestError "resourceSonarqubeWebhookUpdate" failure)),
          (d, w')))
  ∧ (∀ err d' w',
       resourceSonarqubeWebhookUpdate m (d, w) = (inl err, (d', w')) → d' = d)
  ∧ (∀ resp w', answered m (updateRequest m d) w StatusNoContent resp w' →
       resourceSonarqubeWebhookUpdate m (d, w)
       = resourceSonarqubeWebhookRead m (d, w')
       ∧ ∀ resp2 w2 getWebhooks,
           answered m (listRequest m d) w' StatusOK resp2 w2 →
           decodeGetWebhooks (Body resp2) = inr getWebhooks →
           (Exists (λ value, Key value = Id d) (Webhooks getWebhooks) →
              ∃ d', resourceSonarqubeWebhookUpdate m (d, w) = (inr tt, (d', w2)) ∧
                    Id d' = Id d)
           ∧ (Forall (λ value, Key value ≠ Id d) (Webhooks getWebhooks) →
                resourceSonarqubeWebhookUpdate m (d, w)
                = (inr tt, (SetId "" d, w2)))).
Proof.
  split; [| split].
  - intros w' Hrefused. rewrite Update_eq.
    destruct (httpRequestHelper_refused m (updateRequest m d) w StatusNoContent w'
                "resourceSonarqubeWebhookUpdate" Hrefused) as [failure Hhelper].
    cbn [Method Url updateRequest] in Hhelper. cbn [Url updateRequest].
    rewrite Hhelper. by exists failure.
  - intros err d' w'. rewrite Update_eq.
    destruct (httpRequestHelper (httpClient m) "POST" (Url (updateRequest m d))
                StatusNoContent "resourceSonarqubeWebhookUpdate" w)
      as [[err' | resp] w''].
    + congruence.
    + apply Read_error_unchanged.
  - intros resp w' Hcall.
    assert (resourceSonarqubeWebhookUpdate m (d, w)
            = resourceSonarqubeWebhookRead m (d, w')) as Heq.
    { rewrite Update_eq.
      by rewrite (httpRequestHelper_answered m (updateRequest m d) w
                    StatusNoContent resp w' _ Hcall). }
    split; [exact Heq |].
    intros resp2 w2 getWebhooks Hcall2 Hdecode2. split.
    + intros Hex.
      destruct (Read_present m d w' resp2 w2 getWebhooks Hcall2 Hdecode2 Hex)
        as (value & _ & Hkey & Hread).
      exists (populated value d). by rewrite Heq, Hread.
    + intros Habsent. rewrite Heq.
      by apply (Read_absent m d w' resp2 w2 getWebhooks).
Qed.

(** C5. Delete, on a response with status 204, returns success and
    leaves the identifier and the fields as they were; on any other
    status or a transport failure it returns the error of the call
    wrapped in its own message. *)
Theorem C5_delete_only_on_204
    {W} (m : ProviderConfiguration W) d w :
  (∀ resp w', answered m (deleteRequest m d) w StatusNoContent resp w' →
     resourceSonarqubeWebhookDelete m (d, w) = (inr tt, (d, w')))
  ∧ (∀ w', refused m (deleteRequest m d) w StatusNoContent w' →
       ∃ failure,
         resourceSonarqubeWebhookDelete m (d, w)
         = (inl (Errorf "resourceSonarqubeWebhookDelete: Failed to delete webhook: "
                   (requestError "resourceSonarqubeWebhookDelete" failure)),
            (d, w'))).
Proof.
  split.
  - intros resp w' Hcall. rewrite Delete_eq.
    by rewrite (httpRequestHelper_answered m (deleteRequest m d) w
                  StatusNoContent resp w' _ Hcall).
  - intros w' Hrefused. rewrite Delete_eq.
    destruct (httpRequestHelper_refused m (deleteRequest m d) w StatusNoContent w'
                "resourceSonarqubeWebhookDelete" Hrefused) as [failure Hhelper].
    cbn [Method Url deleteRequest] in Hhelper. cbn [Url deleteRequest].
    rewrite Hhelper. by exists failure.
Qed.

(** C6. Read sends one request, GET api/webhooks/list. When the project
    field is set the query is the encoded project parameter; when it is
    not set Read adds nothing and the query is the one of the configured
    URL, so with a configured URL without query none is sent. When the
    decoded list has a first entry whose key is the identifier, the four
    fields key, name, url and secret are overwritten from that entry. *)
Theorem C6_read_request_scan_overwrite
    {W} (m : ProviderConfiguration W) d w :
  requestsOf (λ W', resourceSonarqubeWebhookRead) m d w = [listRequest m d]
  ∧ Method (listRequest m d) = "GET"
  ∧ Path (Url (listRequest m d)) = "api/webhooks/list"
  ∧ RawQuery (Url (listRequest m d))
    = (if snd (GetOk d "project")
       then Encode {[ "project" := [Get d "project"] ]}
       else RawQuery (sonarQubeURL m))
  ∧ (RawQuery (sonarQubeURL m) = "" →
     snd (GetOk d "project") = false →
     RawQuery (Url (listRequest m d)) = "")
  ∧ ∀ resp w' getWebhooks before value after,
      answered m (listRequest m d) w StatusOK resp w' →
      decodeGetWebhooks (Body resp) = inr getWebhooks →
      Webhooks getWebhooks = (before ++ value :: after)%list →
      Forall (λ x, Key x ≠ Id d) before →
      Key value = Id d →
      ∃ d', resourceSonarqubeWebhookRead m (d, w) = (inr tt, (d', w')) ∧
            Id d' = Id d ∧
            Get d' "key" = Key value ∧
            Get d' "name" = Name value ∧
            Get d' "url" = URL_ value ∧
            Get d' "secret" = Secret value.
Proof.
  split_and!.
  - unfold requestsOf. rewrite Read_recorded.
    by destruct (resourceSonarqubeWebhookRead m (d, w)) as [r [d' w']].
  - done.
  - done.
  - unfold listRequest, GetOk, Get; cbn [Url RawQuery].
    by destruct (attrs d !! "project").
  - intros Hbase Hunset. unfold listRequest; cbn [Url RawQuery].
    by rewrite Hunset.
  - intros resp w' getWebhooks before value after Hcall Hdecode Hlist Hbefore Hkey.
    exists (populated value d). split.
    + by apply (Read_found m d w resp w' getWebhooks before value after).
    + destruct (populated_fields value d) as (Hid & Hk & Hn & Hu & Hs).
      split_and!; [by rewrite Hid | done | done | done | done].
Qed.

(** C7. Create and Read, when their call succeeds and the body does not
    decode, return an error made of the name of the operation and the
    parse error, and leave the identifier and the fields unmodified. *)
Theorem C7_decode_failure_is_fatal
    {W} (m : ProviderConfiguration W) d w :
  (∀ resp w' err,
     answered m (createRequest m d) w StatusOK resp w' →
     decodeCreateWebhookResponse (Body resp) = inl err →
     resourceSonarqubeWebhookCreate m (d, w)
     = (inl ("resourceSonarqubeWebhookCreate; Failed to decode json into struct: " +:+ err),
        (d, w')))
  ∧ (∀ resp w' err,
       answered m (listRequest m d) w StatusOK resp w' →
       decodeGetWebhooks (Body resp) = inl err →
       resourceSonarqubeWebhookRead m (d, w)
       = (inl ("resourceSonarqubeWebhookRead: Failed to decode json into struct: " +:+ err),
          (d, w'))).
Proof.
  split; intros resp w' err Hcall Hdecode.
  - rewrite Create_eq.
    rewrite (httpRequestHelper_answered m (createRequest m d) w StatusOK resp w' _ Hcall).
    by rewrite Hdecode.
  - rewrite Read_eq.
    rewrite (httpRequestHelper_answered m (listRequest m d) w StatusOK resp w' _ Hcall).
    by rewrite Hdecode.
Qed.

(** C8. Update sends POST api/webhooks/update with webhook set to the
    current identifier, name and url, and project and secret exactly when
    they are set; it expects status 204; when the POST succeeds it goes on
    as Read and the list request is the one further call, and when the
    POST fails no Read takes place. *)
Theorem C8_update_request_then_one_read
    {W} (m : ProviderConfiguration W) d w :
  (Method (updateRequest m d) = "POST"
   ∧ Path (Url (updateRequest m d)) = "api/webhooks/update"
   ∧ RawQuery (Url (updateRequest m d)) = Encode (updateParams d)
   ∧ updateParams d !! "webhook" = Some [Id d]
   ∧ updateParams d !! "name" = Some [Get d "name"]
   ∧ updateParams d !! "url" = Some [Get d "url"]
   ∧ updateParams d !! "project"
     = (if snd (GetOk d "project") then Some [Get d "project"] else None)
   ∧ updateParams d !! "secret"
     = (if snd (GetOk d "secret") then Some [Get d "secret"] else None)
   ∧ ∀ key, is_Some (updateParams d !! key) →
            key ∈ ["webhook"; "name"; "url"; "project"; "secret"])
  ∧ (∀ resp w', answered m (updateRequest m d) w StatusNoContent resp w' →
       resourceSonarqubeWebhookUpdate m (d, w)
       = resourceSonarqubeWebhookRead m (d, w')
       ∧ requestsOf (λ W', resourceSonarqubeWebhookUpdate) m d w
         = [updateRequest m d; listRequest m d])
  ∧ (∀ w', refused m (updateRequest m d) w StatusNoContent w' →
       (∃ err, resourceSonarqubeWebhookUpdate m (d, w) = (inl err, (d, w')))
       ∧ requestsOf (λ W', resourceSonarqubeWebhookUpdate) m d w
         = [updateRequest m d]).
Proof.
  assert (∀ field, fst (GetOk d field) = Get d field) as Hget.
  { intros field. unfold GetOk, Get. by destruct (attrs d !! field). }
  split; [| split].
  - destruct (updateParams_lookup d) as (Hw & Hn & Hu & Hp & Hs).
    split_and!;
      [done | done | done | done | done | done
       | by rewrite Hp, Hget | by rewrite Hs, Hget |].
    intros key Hsome.
    destruct (decide (key ∈ ["webhook"; "name"; "url"; "project"; "secret"]))
      as [| Hnot]; [done |].
    exfalso. destruct Hsome as [values Hvalues]. unfold updateParams in Hvalues.
    rewrite !optionalParam_lookup_ne, !lookup_insert_ne, lookup_empty in Hvalues;
      [done | ..]; intros <-; apply Hnot; set_solver.
  - intros resp w' Hcall. split.
    + rewrite Update_eq.
      by rewrite (httpRequestHelper_answered m (updateRequest m d) w
                    StatusNoContent resp w' _ Hcall).
    + rewrite Update_recorded.
      by rewrite (httpRequestHelper_answered m (updateRequest m d) w
                    StatusNoContent resp w' _ Hcall).
  - intros w' Hrefused.
    destruct (httpRequestHelper_refused m (updateRequest m d) w StatusNoContent w'
                "resourceSonarqubeWebhookUpdate" Hrefused) as [failure Hhelper].
    cbn [Method Url updateRequest] in Hhelper. split.
    + rewrite Update_eq. cbn [Url updateRequest]. rewrite Hhelper. by eexists.
    + rewrite Update_recorded. cbn [Url updateRequest]. by rewrite Hhelper.
Qed.

(** C9. Import is Read on the data it is given: it returns an error
    exactly when Read does, the same one, and otherwise the one resource
    data as Read left it; the data and the server end as after Read. *)
Theorem C9_import_delegates_to_read
    {W} (m : ProviderConfiguration W) (s : ResourceData * W) :
  (∀ err, fst (resourceSonarqubeWebhookImport m s) = inl err
          ↔ fst (resourceSonarqubeWebhookRead m s) = inl err)
  ∧ (fst (resourceSonarqubeWebhookRead m s) = inr tt →
       fst (resourceSonarqubeWebhookImport m s)
       = inr [fst (snd (resourceSonarqubeWebhookRead m s))])
  ∧ snd (resourceSonarqubeWebhookImport m s)
    = snd (resourceSonarqubeWebhookRead m s).
Proof.
  rewrite Import_eq.
  destruct (resourceSonarqubeWebhookRead m s) as [[err' | []] s']; cbn [fst snd].
  - split_and!; [| discriminate | done].
    intros err. split; intros [= ->]; reflexivity.
  - split_and!; [| done | done]. intros err. split; discriminate.
Qed.

(** C10. Import of an identifier that no entry of the list response has
    as its key, the call answered and the body decoded, returns no error
    and the resource data with the identifier cleared. *)
Theorem C10_import_of_unknown_identifier_succeeds
    {W} (m : ProviderConfiguration W) d w resp w' getWebhooks :
  answered m (listRequest m d) w StatusOK resp w' →
  decodeGetWebhooks (Body resp) = inr getWebhooks →
  Forall (λ value, Key value ≠ Id d) (Webhooks getWebhooks) →
  resourceSonarqubeWebhookImport m (d, w)
  = (inr [SetId "" d], (SetId "" d, w'))
  ∧ Id (SetId "" d) = "".
Proof.
  intros Hcall Hdecode Habsent. split; [| done].
  rewrite Import_eq.
  by rewrite (Read_absent m d w resp w' getWebhooks Hcall Hdecode Habsent).
Qed.

End Properties.

(** ** The properties on the scripted server *)

Section OnTheScriptedServer.
Import Demo.

(** A stale identifier: the list only has the other webhook. *)
Lemma C1_witness :
  @resourceSonarqubeWebhookRead externals World config
    (present, [ok 200 "AV2"])
  = (inr tt, (SetId "" present, [])) ∧ Id (SetId "" present) = "".
Proof.
  apply (@C1_read_absent_clears_identifier externals World config present
           [ok 200 "AV2"] {| StatusCode := 200; Body := "AV2" |} []
           {| Webhooks := [other] |}).
  - split; reflexivity.
  - reflexivity.
  - repeat constructor. discriminate.
Defined.

(** A create response without a key. *)
Lemma C2_witness :
  @resourceSonarqubeWebhookCreate externals World config
    (declared, [ok 200 "created"])
  = (inl "resourceSonarqubeWebhookCreate: Create response did not contain the webhook's key",
     (declared, [])).
Proof.
  apply (@C2_create_empty_key_is_error externals World config declared
           [ok 200 "created"] {| StatusCode := 200; Body := "created" |} []
           {| Webhook_ := {| Key := ""; Name := "build-notify";
                             URL_ := "https://ci.example/hook"; Secret := "" |} |}).
  - split; reflexivity.
  - reflexivity.
  - reflexivity.
Defined.


(** An update answered 204 after which the list no longer has the
    webhook: Update returns success and the identifier is gone. *)
Lemma C4_counterexample :
  answered config (@updateRequest externals World config present)
    [ok 204 ""; ok 200 "AV2"] StatusNoContent
    {| StatusCode := 204; Body := "" |} [ok 200 "AV2"]
  ∧ Id present = "AV1"
  ∧ @resourceSonarqubeWebhookUpdate externals World config
      (present, [ok 204 ""; ok 200 "AV2"])
    = (inr tt, (SetId "" present, []))
  ∧ Id (SetId "" present) = "".
Proof.
  split_and!; [split | | |]; reflexivity.
Qed.

Lemma C4_witness :
  (∃ failure,
     @resourceSonarqubeWebhookUpdate externals World config
       (present, [ok 500 "down"])
     = (inl (Errorf "Error updating Sonarqube webhook: "
               (@requestError externals "resourceSonarqubeWebhookUpdate" failure)),
        (present, [])))
  ∧ (∃ d', @resourceSonarqubeWebhookUpdate externals World config
             (present, [ok 204 ""; ok 200 "AV2 AV1"])
           = (inr tt, (d', [])) ∧ Id d' = "AV1")
  ∧ @resourceSonarqubeWebhookUpdate externals World config
      (present, [ok 204 ""; ok 200 "AV2"])
    = (inr tt, (SetId "" present, [])).
Proof.
  split_and!.
  - apply (proj1 (@C4_update_failure_or_read externals World config present
                    [ok 500 "down"]) []).
    right. exists {| StatusCode := 500; Body := "down" |}. split; [reflexivity | discriminate].
  - apply (proj1
             (proj2 (proj2 (proj2 (@C4_update_failure_or_read externals World config present
                              [ok 204 ""; ok 200 "AV2 AV1"]))
                      {| StatusCode := 204; Body := "" |} [ok 200 "AV2 AV1"]
                      (conj eq_refl eq_refl))
                {| StatusCode := 200; Body := "AV2 AV1" |} []
                {| Webhooks := [other; hook] |} (conj eq_refl eq_refl) eq_refl)).
    apply Exists_cons_tl, Exists_cons_hd. reflexivity.
  - apply (proj2
             (proj2 (proj2 (proj2 (@C4_update_failure_or_read externals World config present
                              [ok 204 ""; ok 200 "AV2"]))
                      {| StatusCode := 204; Body := "" |} [ok 200 "AV2"]
                      (conj eq_refl eq_refl))
                {| StatusCode := 200; Body := "AV2" |} []
                {| Webhooks := [other] |} (conj eq_refl eq_refl) eq_refl)).
    repeat constructor. discriminate.
Defined.

Lemma C5_witness :
  @resourceSonarqubeWebhookDelete externals World config (present, [ok 204 ""])
  = (inr tt, (present, []))
  ∧ ∃ failure,
      @resourceSonarqubeWebhookDelete externals World config
        (present, [ok 404 "no such webhook"])
      = (inl (Errorf "resourceSonarqubeWebhookDelete: Failed to delete webhook: "
                (@requestError externals "resourceSonarqubeWebhookDelete" failure)),
         (present, [])).
Proof.
  split.
  - apply (proj1 (@C5_delete_only_on_204 externals World config present [ok 204 ""])
             {| StatusCode := 204; Body := "" |} []).
    split; reflexivity.
  - apply (proj2 (@C5_delete_only_on_204 externals World config present
                    [ok 404 "no such webhook"]) []).
    right. exists {| StatusCode := 404; Body := "no such webhook" |}.
    split; [reflexivity | discriminate].
Defined.

(** The project field unset, and a configured URL whose query encodes
    a project: the list request goes out with that query. *)
Lemma C6_counterexample :
  GetOk present "project" = ("", false)
  ∧ requestsOf (λ W', @resourceSonarqubeWebhookRead externals W')
      Scenarios.pinned present [ok 200 "AV2 AV1"]
    = [ {| Method := "GET";
           Url := {| Scheme := "https"; Host := "sonar.example";
                     Path := "api/webhooks/list";
                     RawQuery := @Encode externals
                                   {[ "project" := ["someone-elses"] ]} |} |} ].
Proof.
  split; reflexivity.
Qed.

Lemma C6_witness :
  RawQuery (Url (@listRequest externals World config present)) = ""
  ∧ ∃ d', @resourceSonarqubeWebhookRead externals World config
            (present, [ok 200 "AV2 AV1"])
          = (inr tt, (d', [])) ∧
          Id d' = "AV1" ∧ Get d' "key" = "AV1" ∧ Get d' "name" = "build-notify" ∧
          Get d' "url" = "https://ci.example/hook" ∧ Get d' "secret" = "".
Proof.
  split.
  - apply (proj1 (proj2 (proj2 (proj2 (proj2
             (@C6_read_request_scan_overwrite externals World config present
                [ok 200 "AV2 AV1"])))))); reflexivity.
  - apply (proj2 (proj2 (proj2 (proj2 (proj2
             (@C6_read_request_scan_overwrite externals World config present
                [ok 200 "AV2 AV1"])))))
             {| StatusCode := 200; Body := "AV2 AV1" |} []
             {| Webhooks := [other; hook] |} [other] hook []).
    + split; reflexivity.
    + reflexivity.
    + reflexivity.
    + repeat constructor. discriminate.
    + reflexivity.
Defined.

Lemma C7_witness :
  @resourceSonarqubeWebhookCreate externals World config
    (declared, [ok 200 "<html>"])
  = (inl "resourceSonarqubeWebhookCreate; Failed to decode json into struct: unexpected end of JSON input",
     (declared, []))
  ∧ @resourceSonarqubeWebhookRead externals World config
      (present, [ok 200 "<html>"])
    = (inl "resourceSonarqubeWebhookRead: Failed to decode json into struct: unexpected end of JSON input",
       (present, [])).
Proof.
  split.
  - apply (proj1 (@C7_decode_failure_is_fatal externals World config declared
                    [ok 200 "<html>"])
             {| StatusCode := 200; Body := "<html>" |} [] "unexpected end of JSON input").
    + split; reflexivity.
    + reflexivity.
  - apply (proj2 (@C7_decode_failure_is_fatal externals World config present
                    [ok 200 "<html>"])
             {| StatusCode := 200; Body := "<html>" |} [] "unexpected end of JSON input").
    + split; reflexivity.
    + reflexivity.
Defined.

Lemma C8_witness :
  (@resourceSonarqubeWebhookUpdate externals World config
     (present, [ok 204 ""; ok 200 "AV2 AV1"])
   = @resourceSonarqubeWebhookRead externals World config
       (present, [ok 200 "AV2 AV1"])
   ∧ requestsOf (λ W', @resourceSonarqubeWebhookUpdate externals W') config present
       [ok 204 ""; ok 200 "AV2 AV1"]
     = [@updateRequest externals World config present;
        @listRequest externals World config present])
  ∧ ((∃ err, @resourceSonarqubeWebhookUpdate externals World config
               (present, [ok 200 ""; ok 200 "AV2 AV1"])
             = (inl err, (present, [ok 200 "AV2 AV1"])))
     ∧ requestsOf (λ W', @resourceSonarqubeWebhookUpdate externals W') config present
         [ok 200 ""; ok 200 "AV2 AV1"]
       = [@updateRequest externals World config present]).
Proof.
  split.
  - apply (proj1 (proj2 (@C8_update_request_then_one_read externals World config
                           present [ok 204 ""; ok 200 "AV2 AV1"]))
             {| StatusCode := 204; Body := "" |} [ok 200 "AV2 AV1"]).
    split; reflexivity.
  - apply (proj2 (proj2 (@C8_update_request_then_one_read externals World config
                           present [ok 200 ""; ok 200 "AV2 AV1"]))
             [ok 200 "AV2 AV1"]).
    right. exists {| StatusCode := 200; Body := "" |}.
    split; [reflexivity | discriminate].
Defined.

Lemma C9_witness :
  fst (@resourceSonarqubeWebhookImport externals World config
         (present, [ok 200 "AV2 AV1"]))
  = inr [fst (snd (@resourceSonarqubeWebhookRead externals World config
                     (present, [ok 200 "AV2 AV1"])))].
Proof.
  apply (proj1 (proj2 (@C9_import_delegates_to_read externals World config
                         (present, [ok 200 "AV2 AV1"])))).
  reflexivity.
Defined.

Lemma C10_witness :
  @resourceSonarqubeWebhookImport externals World config
    (present, [ok 200 "AV2"])
  = (inr [SetId "" present], (SetId "" present, []))
  ∧ Id (SetId "" present) = "".
Proof.
  apply (@C10_import_of_unknown_identifier_succeeds externals World config present
           [ok 200 "AV2"] {| StatusCode := 200; Body := "AV2" |} []
           {| Webhooks := [other] |}).
  - split; reflexivity.
  - reflexivity.
  - repeat constructor. discriminate.
Defined.

End OnTheScriptedServer.

(** ** Further properties of the hooks *)

Section FurtherProperties.
Context `{Ext : Externals}.
Implicit Types (d : ResourceData).

(** *** Every outcome of Read *)

(** The three ways Read can end. *)
Lemma Read_cases {W} (m : ProviderConfiguration W) d w :
  (∃ err w', resourceSonarqubeWebhookRead m (d, w) = (inl err, (d, w')))
  ∨ (∃ value w', Key value = Id d ∧
       resourceSonarqubeWebhookRead m (d, w) = (inr tt, (populated value d, w')))
  ∨ (∃ w', resourceSonarqubeWebhookRead m (d, w) = (inr tt, (SetId "" d, w'))).
Proof.
  rewrite Read_eq.
  destruct (httpRequestHelper (httpClient m) "GET" (Url (listRequest m d))
              StatusOK "resourceSonarqubeWebhookRead" w) as [[err | resp] w'].
  { left. by exists err, w'. }
  destruct (decodeGetWebhooks (Body resp)) as [err | getWebhooks].
  { left. by eexists _, w'. }
  destruct (scanWebhooks_cases (Webhooks getWebhooks) d)
    as [[Hscan _] | (value & _ & Hkey & Hscan)]; rewrite Hscan.
  - right. right. by exists w'.
  - right. left. by exists value, w'.
Qed.

Lemma sameElsewhere_refl d : sameElsewhere d d.
Proof. by intros field _. Qed.

Lemma sameElsewhere_populated value d : sameElsewhere d (populated value d).
Proof. intros field Hfield. by apply populated_other. Qed.

Lemma sameElsewhere_SetId v d : sameElsewhere d (SetId v d).
Proof. by intros field _. Qed.

Lemma Read_sameElsewhere {W} (m : ProviderConfiguration W) d w :
  sameElsewhere d (dataAfter (resourceSonarqubeWebhookRead m (d, w))).
Proof.
  destruct (Read_cases m d w)
    as [(err & w' & ->) | [(value & w' & _ & ->) | (w' & ->)]]; cbn.
  - apply sameElsewhere_refl.
  - apply sameElsewhere_populated.
  - apply sameElsewhere_SetId.
Qed.

Lemma Read_identifier {W} (m : ProviderConfiguration W) d w :
  Id (dataAfter (resourceSonarqubeWebhookRead m (d, w))) = Id d
  ∨ Id (dataAfter (resourceSonarqubeWebhookRead m (d, w))) = "".
Proof.
  destruct (Read_cases m d w)
    as [(err & w' & ->) | [(value & w' & Hkey & ->) | (w' & ->)]]; cbn;
    [by left | by left | by right].
Qed.

(** *** The calls of Create, Delete and Import *)

Lemma Create_requests {W} (m : ProviderConfiguration W) d w :
  requestsOf (λ W', resourceSonarqubeWebhookCreate) m d w
  = match httpRequestHelper (httpClient m) "POST" (Url (createRequest m d))
            StatusOK "resourceSonarqubeWebhookCreate" w with
    | (inl _, _) => [createRequest m d]
    | (inr resp, _) =>
        match decodeCreateWebhookResponse (Body resp) with
        | inl _ => [createRequest m d]
        | inr webhookResponse =>
            if decide (Key (Webhook_ webhookResponse) = "")
            then [createRequest m d]
            else [createRequest m d; listRequest m d]
        end
    end.
Proof.
  unfold requestsOf. rewrite (Create_eq (recorded m)).
  change (createRequest (recorded m) d) with (createRequest m d).
  change (httpClient (recorded m)) with (recording (httpClient m)).
  rewrite httpRequestHelper_recording.
  destruct (httpRequestHelper (httpClient m) "POST" (Url (createRequest m d))
              StatusOK "resourceSonarqubeWebhookCreate" w) as [[err | resp] w'];
    [done |].
  destruct (decodeCreateWebhookResponse (Body resp)) as [err | webhookResponse];
    [done |].
  destruct (decide (Key (Webhook_ webhookResponse) = "")); [done |].
  rewrite Read_recorded.
  by destruct (resourceSonarqubeWebhookRead m
                 (SetId (Key (Webhook_ webhookResponse)) d, w')) as [r [d' w'']].
Qed.

Lemma Delete_requests {W} (m : ProviderConfiguration W) d w :
  requestsOf (λ W', resourceSonarqubeWebhookDelete) m d w = [deleteRequest m d].
Proof.
  unfold requestsOf. rewrite (Delete_eq (recorded m)).
  change (deleteRequest (recorded m) d) with (deleteRequest m d).
  change (httpClient (recorded m)) with (recording (httpClient m)).
  rewrite httpRequestHelper_recording.
  by destruct (httpRequestHelper (httpClient m) "POST" (Url (deleteRequest m d))
                 StatusNoContent "resourceSonarqubeWebhookDelete" w)
       as [[err | resp] w'].
Qed.

Lemma Read_requests {W} (m : ProviderConfiguration W) d w :
  requestsOf (λ W', resourceSonarqubeWebhookRead) m d w = [listRequest m d].
Proof.
  unfold requestsOf. rewrite Read_recorded.
  by destruct (resourceSonarqubeWebhookRead m (d, w)) as [r [d' w']].
Qed.

Lemma Import_requests {W} (m : ProviderConfiguration W) d w :
  requestsOf (λ W', resourceSonarqubeWebhookImport) m d w = [listRequest m d].
Proof.
  unfold requestsOf. rewrite (Import_eq (recorded m)), Read_recorded.
  by destruct (resourceSonarqubeWebhookRead m (d, w)) as [[err | []] [d' w']].
Qed.

(** Delete leaves the resource data alone whatever the server says. *)
Lemma Delete_data {W} (m : ProviderConfiguration W) d w :
  dataAfter (resourceSonarqubeWebhookDelete m (d, w)) = d.
Proof.
  rewrite Delete_eq.
  by destruct (httpRequestHelper (httpClient m) "POST" (Url (deleteRequest m d))
                 StatusNoContent "resourceSonarqubeWebhookDelete" w)
       as [[err | resp] w'].
Qed.

(** The data after Update: untouched, or what Read makes of it. *)
Lemma Update_data {W} (m : ProviderConfiguration W) d w :
  dataAfter (resourceSonarqubeWebhookUpdate m (d, w)) = d
  ∨ ∃ w', dataAfter (resourceSonarqubeWebhookUpdate m (d, w))
          = dataAfter (resourceSonarqubeWebhookRead m (d, w')).
Proof.
  rewrite Update_eq.
  destruct (httpRequestHelper (httpClient m) "POST" (Url (updateRequest m d))
              StatusNoContent "resourceSonarqubeWebhookUpdate" w)
    as [[err | resp] w']; [by left | right; by exists w'].
Qed.

(** The data after Create: untouched, or what Read makes of it once the
    identifier is the key of the create response. *)
Lemma Create_data {W} (m : ProviderConfiguration W) d w :
  dataAfter (resourceSonarqubeWebhookCreate m (d, w)) = d
  ∨ ∃ resp w' webhookResponse,
      httpClient m (createRequest m d) w = (inr resp, w') ∧
      decodeCreateWebhookResponse (Body resp) = inr webhookResponse ∧
      Key (Webhook_ webhookResponse) ≠ "" ∧
      dataAfter (resourceSonarqubeWebhookCreate m (d, w))
      = dataAfter (resourceSonarqubeWebhookRead m
                     (SetId (Key (Webhook_ webhookResponse)) d, w')).
Proof.
  rewrite Create_eq. unfold httpRequestHelper.
  change (mkRequest "POST" (Url (createRequest m d))) with (createRequest m d).
  destruct (httpClient m (createRequest m d) w) as [[err | resp] w'] eqn:Hcall;
    [by left |].
  destruct (decide (StatusCode resp = StatusOK)); [| by left].
  destruct (decodeCreateWebhookResponse (Body resp)) as [err | webhookResponse] eqn:Hdecode;
    [by left |].
  destruct (decide (Key (Webhook_ webhookResponse) = "")); [by left |].
  right. by exists resp, w', webhookResponse.
Qed.

Lemma Import_data {W} (m : ProviderConfiguration W) d w :
  dataAfter (resourceSonarqubeWebhookImport m (d, w))
  = dataAfter (resourceSonarqubeWebhookRead m (d, w)).
Proof.
  rewrite Import_eq.
  by destruct (resourceSonarqubeWebhookRead m (d, w)) as [[err | []] s'].
Qed.

Lemma Create_sameElsewhere {W} (m : ProviderConfiguration W) d w :
  sameElsewhere d (dataAfter (resourceSonarqubeWebhookCreate m (d, w))).
Proof.
  destruct (Create_data m d w) as [-> | (resp & w' & r & _ & _ & _ & ->)].
  - apply sameElsewhere_refl.
  - intros field Hfield.
    by rewrite (Read_sameElsewhere m (SetId (Key (Webhook_ r)) d) w' field Hfield).
Qed.

Lemma Update_sameElsewhere {W} (m : ProviderConfiguration W) d w :
  sameElsewhere d (dataAfter (resourceSonarqubeWebhookUpdate m (d, w))).
Proof.
  destruct (Update_data m d w) as [-> | [w' ->]].
  - apply sameElsewhere_refl.
  - apply Read_sameElsewhere.
Qed.

(** *** The parameters of Create *)

Lemma createParams_lookup d :
  createParams d !! "name" = Some [Get d "name"] ∧
  createParams d !! "url" = Some [Get d "url"] ∧
  createParams d !! "project"
    = (if snd (GetOk d "project") then Some [fst (GetOk d "project")] else None) ∧
  createParams d !! "secret"
    = (if snd (GetOk d "secret") then Some [fst (GetOk d "secret")] else None).
Proof.
  unfold createParams.
  split_and!.
  - by rewrite !optionalParam_lookup_ne.
  - by rewrite !optionalParam_lookup_ne.
  - rewrite optionalParam_lookup_ne by done. unfold optionalParam.
    destruct (snd (GetOk d "project")); [by rewrite lookup_insert_eq | done].
  - unfold optionalParam at 1.
    destruct (snd (GetOk d "secret")); [by rewrite lookup_insert_eq |].
    by rewrite optionalParam_lookup_ne.
Qed.

Lemma createParams_keys d key :
  is_Some (createParams d !! key) → key ∈ ["name"; "url"; "project"; "secret"].
Proof.
  intros [values Hvalues].
  destruct (decide (key ∈ ["name"; "url"; "project"; "secret"])) as [| Hnot]; [done |].
  exfalso. unfold createParams in Hvalues.
  rewrite !optionalParam_lookup_ne, !lookup_insert_ne, lookup_empty in Hvalues;
    [done | ..]; intros <-; apply Hnot; set_solver.
Qed.

Lemma updateParams_keys d key :
  is_Some (updateParams d !! key) →
  key ∈ ["webhook"; "name"; "url"; "project"; "secret"].
Proof.
  intros [values Hvalues].
  destruct (decide (key ∈ ["webhook"; "name"; "url"; "project"; "secret"]))
    as [| Hnot]; [done |].
  exfalso. unfold updateParams in Hvalues.
  rewrite !optionalParam_lookup_ne, !lookup_insert_ne, lookup_empty in Hvalues;
    [done | ..]; intros <-; apply Hnot; set_solver.
Qed.

Lemma GetOk_fst d field : fst (GetOk d field) = Get d field.
Proof. unfold GetOk, Get. by destruct (attrs d !! field). Qed.

(** *** Read once more on what Read found *)

Lemma GetOk_sameElsewhere d d' field :
  sameElsewhere d d' → field ∉ copiedFields → GetOk d' field = GetOk d field.
Proof. intros Hsame Hfield. unfold GetOk. by rewrite (Hsame field Hfield). Qed.

Lemma project_not_copied : "project" ∉ copiedFields.
Proof.
  unfold copiedFields. rewrite !not_elem_of_cons.
  split_and!; [done | done | done | done | apply not_elem_of_nil].
Qed.

Lemma listRequest_sameElsewhere {W} (m : ProviderConfiguration W) d d' :
  sameElsewhere d d' → listRequest m d' = listRequest m d.
Proof.
  intros Hsame. unfold listRequest.
  by rewrite (GetOk_sameElsewhere d d' "project" Hsame project_not_copied).
Qed.

Lemma populated_populated value d :
  populated value (populated value d) = populated value d.
Proof.
  unfold populated; cbn [Id attrs]. f_equal.
  apply map_eq. intros field.
  rewrite !lookup_insert. by repeat case_decide.
Qed.

(** *** Create *)

(** X1. The first call of Create is always POST api/webhooks/create; its
    query encodes name and url, each with the one value the data holds
    (empty when unset), project and secret exactly when they are set, and
    no other parameter. *)
Theorem X1_create_request_parameters
    {W} (m : ProviderConfiguration W) d w :
  (∃ rest, requestsOf (λ W', resourceSonarqubeWebhookCreate) m d w
           = createRequest m d :: rest)
  ∧ Method (createRequest m d) = "POST"
  ∧ Path (Url (createRequest m d)) = "api/webhooks/create"
  ∧ RawQuery (Url (createRequest m d)) = Encode (createParams d)
  ∧ createParams d !! "name" = Some [Get d "name"]
  ∧ createParams d !! "url" = Some [Get d "url"]
  ∧ createParams d !! "project"
    = (if snd (GetOk d "project") then Some [Get d "project"] else None)
  ∧ createParams d !! "secret"
    = (if snd (GetOk d "secret") then Some [Get d "secret"] else None)
  ∧ ∀ key, is_Some (createParams d !! key) →
           key ∈ ["name"; "url"; "project"; "secret"].
Proof.
  destruct (createParams_lookup d) as (Hn & Hu & Hp & Hs).
  split_and!; try done.
  - rewrite Create_requests.
    destruct (httpRequestHelper (httpClient m) "POST" (Url (createRequest m d))
                StatusOK "resourceSonarqubeWebhookCreate" w) as [[err | resp] w'];
      [by eexists |].
    destruct (decodeCreateWebhookResponse (Body resp)) as [err | r]; [by eexists |].
    destruct (decide (Key (Webhook_ r) = "")); by eexists.
  - by rewrite Hp, GetOk_fst.
  - by rewrite Hs, GetOk_fst.
  - apply createParams_keys.
Qed.

(** X2. When the call of Create fails (transport error or a status other
    than 200), Create returns the error of the request helper as it is,
    without a message of its own, the resource data is unchanged and no
    list request follows. *)
Theorem X2_create_call_failure
    {W} (m : ProviderConfiguration W) d w w' :
  refused m (createRequest m d) w StatusOK w' →
  (∃ failure,
     resourceSonarqubeWebhookCreate m (d, w)
     = (inl (requestError "resourceSonarqubeWebhookCreate" failure), (d, w')))
  ∧ requestsOf (λ W', resourceSonarqubeWebhookCreate) m d w = [createRequest m d].
Proof.
  intros Hrefused.
  destruct (httpRequestHelper_refused m (createRequest m d) w StatusOK w'
              "resourceSonarqubeWebhookCreate" Hrefused) as [failure Hhelper].
  cbn [Method Url createRequest] in Hhelper. split.
  - rewrite Create_eq. cbn [Url createRequest]. rewrite Hhelper. by exists failure.
  - rewrite Create_requests. cbn [Url createRequest]. by rewrite Hhelper.
Qed.

(** X3. When Create got a key and the list response does not hold it,
    Create returns success with the identifier cleared: the identifier
    set from the create response does not survive the following Read. *)
Theorem X3_create_key_missing_from_list
    {W} (m : ProviderConfiguration W) d w resp w' webhookResponse
    resp2 w2 getWebhooks :
  answered m (createRequest m d) w StatusOK resp w' →
  decodeCreateWebhookResponse (Body resp) = inr webhookResponse →
  Key (Webhook_ webhookResponse) ≠ "" →
  answered m (listRequest m d) w' StatusOK resp2 w2 →
  decodeGetWebhooks (Body resp2) = inr getWebhooks →
  Forall (λ value, Key value ≠ Key (Webhook_ webhookResponse)) (Webhooks getWebhooks) →
  resourceSonarqubeWebhookCreate m (d, w) = (inr tt, (SetId "" d, w2)).
Proof.
  intros Hcall Hdecode Hkey Hcall2 Hdecode2 Habsent.
  rewrite Create_eq.
  rewrite (httpRequestHelper_answered m (createRequest m d) w StatusOK resp w' _ Hcall).
  rewrite Hdecode.
  destruct (decide (Key (Webhook_ webhookResponse) = "")); [contradiction |].
  by rewrite (Read_absent m (SetId (Key (Webhook_ webhookResponse)) d) w' resp2 w2
                getWebhooks Hcall2 Hdecode2 Habsent).
Qed.

(** X4. When Create got a key and the following Read fails, on its call
    or on decoding, Create returns the error of Read and the resource
    data keeps the new identifier: the error does not undo SetId. *)
Theorem X4_create_read_failure_keeps_identifier
    {W} (m : ProviderConfiguration W) d w resp w' webhookResponse :
  answered m (createRequest m d) w StatusOK resp w' →
  decodeCreateWebhookResponse (Body resp) = inr webhookResponse →
  Key (Webhook_ webhookResponse) ≠ "" →
  (∀ w2, refused m (listRequest m d) w' StatusOK w2 →
     ∃ failure,
       resourceSonarqubeWebhookCreate m (d, w)
       = (inl (requestError "resourceSonarqubeWebhookRead" failure),
          (SetId (Key (Webhook_ webhookResponse)) d, w2)))
  ∧ (∀ resp2 w2 err,
       answered m (listRequest m d) w' StatusOK resp2 w2 →
       decodeGetWebhooks (Body resp2) = inl err →
       resourceSonarqubeWebhookCreate m (d, w)
       = (inl ("resourceSonarqubeWebhookRead: Failed to decode json into struct: " +:+ err),
          (SetId (Key (Webhook_ webhookResponse)) d, w2))).
Proof.
  intros Hcall Hdecode Hkey.
  assert (resourceSonarqubeWebhookCreate m (d, w)
          = resourceSonarqubeWebhookRead m
              (SetId (Key (Webhook_ webhookResponse)) d, w')) as ->.
  { rewrite Create_eq.
    rewrite (httpRequestHelper_answered m (createRequest m d) w StatusOK resp w' _ Hcall).
    rewrite Hdecode.
    by destruct (decide (Key (Webhook_ webhookResponse) = "")). }
  split.
  - intros w2 Hrefused. rewrite Read_eq.
    destruct (httpRequestHelper_refused m (listRequest m d) w' StatusOK w2
                "resourceSonarqubeWebhookRead" Hrefused) as [failure Hhelper].
    cbn [Method Url listRequest] in Hhelper.
    change (listRequest m (SetId (Key (Webhook_ webhookResponse)) d))
      with (listRequest m d).
    cbn [Url listRequest]. rewrite Hhelper. by exists failure.
  - intros resp2 w2 err Hcall2 Hdecode2. rewrite Read_eq.
    change (listRequest m (SetId (Key (Webhook_ webhookResponse)) d))
      with (listRequest m d).
    rewrite (httpRequestHelper_answered m (listRequest m d) w' StatusOK resp2 w2 _ Hcall2).
    by rewrite Hdecode2.
Qed.

(** *** Read *)

(** X5. When the call of Read fails (transport error or a status other
    than 200), Read returns the error of the request helper as it is and
    the resource data, identifier included, is unchanged: a failed list
    call never marks the resource absent. *)
Theorem X5_read_call_failure
    {W} (m : ProviderConfiguration W) d w w' :
  refused m (listRequest m d) w StatusOK w' →
  ∃ failure,
    resourceSonarqubeWebhookRead m (d, w)
    = (inl (requestError "resourceSonarqubeWebhookRead" failure), (d, w')).
Proof.
  intros Hrefused. rewrite Read_eq.
  destruct (httpRequestHelper_refused m (listRequest m d) w StatusOK w'
              "resourceSonarqubeWebhookRead" Hrefused) as [failure Hhelper].
  cbn [Method Url listRequest] in Hhelper. cbn [Url listRequest].
  rewrite Hhelper. by exists failure.
Qed.

(** The decoded list either holds no entry with the identifier as key or
    splits at the first such entry. *)
Lemma first_entry_or_none (webhooks : list Webhook) d :
  Forall (λ value, Key value ≠ Id d) webhooks
  ∨ ∃ before value after,
      webhooks = (before ++ value :: after)%list ∧
      Forall (λ x, Key x ≠ Id d) before ∧ Key value = Id d.
Proof.
  induction webhooks as [| x rest IH].
  - left. constructor.
  - destruct (decide (Key x = Id d)) as [Heq | Hne].
    + right. by exists [], x, rest.
    + destruct IH as [Hall | (before & value & after & -> & Hbefore & Hkey)].
      * left. by constructor.
      * right. exists (x :: before), value, after.
        split_and!; [done | by constructor | done].
Qed.

(** The call of a hook is either refused or answered, never both, and an
    answered call has one response. *)
Lemma refused_or_answered {W} (m : ProviderConfiguration W) req w status :
  (∃ w', refused m req w status w') ∨ (∃ resp w', answered m req w status resp w').
Proof.
  unfold refused, answered.
  destruct (httpClient m req w) as [[err | resp] w'].
  - left. exists w'. left. by exists err.
  - destruct (decide (StatusCode resp = status)) as [Heq | Hne].
    + right. by exists resp, w'.
    + left. exists w'. right. by exists resp.
Qed.

Lemma refused_not_answered {W} (m : ProviderConfiguration W) req w status w1 resp w2 :
  refused m req w status w1 → answered m req w status resp w2 → False.
Proof.
  intros [[err Hcall] | (resp' & Hcall & Hstatus)] [Hcall' Hstatus'];
    rewrite Hcall in Hcall'; [discriminate |].
  injection Hcall' as -> _. contradiction.
Qed.

Lemma answered_once {W} (m : ProviderConfiguration W) req w status resp1 w1 resp2 w2 :
  answered m req w status resp1 w1 → answered m req w status resp2 w2 →
  resp1 = resp2 ∧ w1 = w2.
Proof.
  intros [Hcall _] [Hcall' _]. rewrite Hcall in Hcall'. by injection Hcall' as -> ->.
Qed.

(** X6. Whatever the server answers, Read ends in one of four ways, and
    the answer decides which. The call is refused: the error of the
    request helper, the resource data unchanged. The call is answered and
    the body does not decode: the decode error, the data unchanged. The
    decoded list has a first entry whose key is the identifier: success,
    the four fields copied from that entry. The decoded list has no entry
    with that key: success, only the identifier cleared. The four
    conditions exclude one another: a call is not both refused and
    answered, an answered call has one response, and a list with an entry
    of that key is not a list without one. *)
Theorem X6_read_outcomes
    {W} (m : ProviderConfiguration W) d w :
  ((∃ w' failure,
      refused m (listRequest m d) w StatusOK w' ∧
      resourceSonarqubeWebhookRead m (d, w)
      = (inl (requestError "resourceSonarqubeWebhookRead" failure), (d, w')))
   ∨ (∃ resp w' err,
        answered m (listRequest m d) w StatusOK resp w' ∧
        decodeGetWebhooks (Body resp) = inl err ∧
        resourceSonarqubeWebhookRead m (d, w)
        = (inl ("resourceSonarqubeWebhookRead: Failed to decode json into struct: "
                +:+ err),
           (d, w')))
   ∨ (∃ resp w' getWebhooks before value after,
        answered m (listRequest m d) w StatusOK resp w' ∧
        decodeGetWebhooks (Body resp) = inr getWebhooks ∧
        Webhooks getWebhooks = (before ++ value :: after)%list ∧
        Forall (λ x, Key x ≠ Id d) before ∧
        Key value = Id d ∧
        resourceSonarqubeWebhookRead m (d, w) = (inr tt, (populated value d, w')))
   ∨ (∃ resp w' getWebhooks,
        answered m (listRequest m d) w StatusOK resp w' ∧
        decodeGetWebhooks (Body resp) = inr getWebhooks ∧
        Forall (λ value, Key value ≠ Id d) (Webhooks getWebhooks) ∧
        resourceSonarqubeWebhookRead m (d, w) = (inr tt, (SetId "" d, w'))))
  ∧ (∀ w1 resp w2,
       refused m (listRequest m d) w StatusOK w1 →
       answered m (listRequest m d) w StatusOK resp w2 → False)
  ∧ (∀ resp1 w1 resp2 w2,
       answered m (listRequest m d) w StatusOK resp1 w1 →
       answered m (listRequest m d) w StatusOK resp2 w2 →
       resp1 = resp2 ∧ w1 = w2)
  ∧ (∀ before value after,
       Forall (λ x, Key x ≠ Id d) (before ++ value :: after)%list →
       Key value ≠ Id d).
Proof.
  split_and!.
  - destruct (refused_or_answered m (listRequest m d) w StatusOK)
      as [[w' Hrefused] | (resp & w' & Hcall)].
    { left. exists w'.
      destruct (httpRequestHelper_refused m (listRequest m d) w StatusOK w'
                  "resourceSonarqubeWebhookRead" Hrefused) as [failure Hhelper].
      cbn [Method Url listRequest] in Hhelper.
      exists failure. split; [done |].
      rewrite Read_eq. cbn [Url listRequest]. by rewrite Hhelper. }
    right.
    destruct (decodeGetWebhooks (Body resp)) as [err | getWebhooks] eqn:Hdecode.
    { left. exists resp, w', err. split_and!; [done | done |].
      rewrite Read_eq.
      rewrite (httpRequestHelper_answered m (listRequest m d) w StatusOK resp w' _ Hcall).
      by rewrite Hdecode. }
    right.
    destruct (first_entry_or_none (Webhooks getWebhooks) d)
      as [Hnone | (before & value & after & Hlist & Hbefore & Hkey)].
    + right. exists resp, w', getWebhooks. split_and!; [done | done | done |].
      by apply (Read_absent m d w resp w' getWebhooks).
    + left. exists resp, w', getWebhooks, before, value, after.
      split_and!; [done | done | done | done | done |].
      by apply (Read_found m d w resp w' getWebhooks before value after).
  - intros w1 resp w2. apply refused_not_answered.
  - intros resp1 w1 resp2 w2. apply answered_once.
  - intros before value after Hall.
    apply Forall_app in Hall as [_ Hall]. by apply Forall_cons in Hall as [Hne _].
Qed.

(** X7. Read is idempotent on what it found: a second Read, run on the
    data the first one left and answered with the same list, sends the
    same request and leaves that data as it is. *)
Theorem X7_read_idempotent_when_found
    {W} (m : ProviderConfiguration W) d w resp w' getWebhooks before value after
    w2 w2' :
  answered m (listRequest m d) w StatusOK resp w' →
  decodeGetWebhooks (Body resp) = inr getWebhooks →
  Webhooks getWebhooks = (before ++ value :: after)%list →
  Forall (λ x, Key x ≠ Id d) before →
  Key value = Id d →
  answered m (listRequest m d) w2 StatusOK resp w2' →
  listRequest m (dataAfter (resourceSonarqubeWebhookRead m (d, w))) = listRequest m d
  ∧ resourceSonarqubeWebhookRead m
      (dataAfter (resourceSonarqubeWebhookRead m (d, w)), w2)
    = (inr tt, (dataAfter (resourceSonarqubeWebhookRead m (d, w)), w2')).
Proof.
  intros Hcall Hdecode Hlist Hbefore Hkey Hcall2.
  rewrite (Read_found m d w resp w' getWebhooks before value after
             Hcall Hdecode Hlist Hbefore Hkey).
  unfold dataAfter; cbn [fst snd].
  assert (listRequest m (populated value d) = listRequest m d) as Hreq
    by apply listRequest_sameElsewhere, sameElsewhere_populated.
  split; [exact Hreq |].
  rewrite (Read_found m (populated value d) w2 resp w2' getWebhooks before value after).
  - by rewrite populated_populated.
  - by rewrite Hreq.
  - done.
  - done.
  - cbn [populated Id]. by rewrite Hkey.
  - done.
Qed.

(** X8. Read on a resource without identifier, given a list in which
    every key is non-empty, succeeds and changes nothing. *)
Theorem X8_read_of_absent_resource
    {W} (m : ProviderConfiguration W) d w resp w' getWebhooks :
  Id d = "" →
  answered m (listRequest m d) w StatusOK resp w' →
  decodeGetWebhooks (Body resp) = inr getWebhooks →
  Forall (λ value, Key value ≠ "") (Webhooks getWebhooks) →
  resourceSonarqubeWebhookRead m (d, w) = (inr tt, (d, w')).
Proof.
  intros Hid Hcall Hdecode Hkeys.
  rewrite (Read_absent m d w resp w' getWebhooks Hcall Hdecode).
  - destruct d as [id a]; cbn in Hid; subst id. done.
  - by rewrite Hid.
Qed.

(** X9. After a Read that found its entry, the secret of the resource
    data is the secret of the list entry, whatever was configured before:
    it counts as set exactly when the entry's secret is non-empty, and
    the project is as it was. *)
Theorem X9_read_replaces_secret
    {W} (m : ProviderConfiguration W) d w resp w' getWebhooks before value after :
  answered m (listRequest m d) w StatusOK resp w' →
  decodeGetWebhooks (Body resp) = inr getWebhooks →
  Webhooks getWebhooks = (before ++ value :: after)%list →
  Forall (λ x, Key x ≠ Id d) before →
  Key value = Id d →
  GetOk (dataAfter (resourceSonarqubeWebhookRead m (d, w))) "secret"
  = (Secret value, bool_decide (Secret value ≠ ""))
  ∧ updateParams (dataAfter (resourceSonarqubeWebhookRead m (d, w))) !! "secret"
    = (if bool_decide (Secret value ≠ "") then Some [Secret value] else None)
  ∧ GetOk (dataAfter (resourceSonarqubeWebhookRead m (d, w))) "project"
    = GetOk d "project".
Proof.
  intros Hcall Hdecode Hlist Hbefore Hkey.
  rewrite (Read_found m d w resp w' getWebhooks before value after
             Hcall Hdecode Hlist Hbefore Hkey).
  unfold dataAfter; cbn [fst snd].
  assert (GetOk (populated value d) "secret"
          = (Secret value, bool_decide (Secret value ≠ ""))) as Hsecret.
  { unfold GetOk, populated; cbn [attrs]. by rewrite lookup_insert_eq. }
  split_and!.
  - exact Hsecret.
  - destruct (updateParams_lookup (populated value d)) as (_ & _ & _ & _ & ->).
    by rewrite Hsecret.
  - apply GetOk_sameElsewhere; [apply sameElsewhere_populated | apply project_not_copied].
Qed.

(** *** Update *)

(** X10. When the POST of Update succeeds and the list holds the
    identifier, Update succeeds and the fields are those of the first
    list entry with that key, not the values the request carried. *)
Theorem X10_update_takes_fields_from_list
    {W} (m : ProviderConfiguration W) d w resp w'
    resp2 w2 getWebhooks before value after :
  answered m (updateRequest m d) w StatusNoContent resp w' →
  answered m (listRequest m d) w' StatusOK resp2 w2 →
  decodeGetWebhooks (Body resp2) = inr getWebhooks →
  Webhooks getWebhooks = (before ++ value :: after)%list →
  Forall (λ x, Key x ≠ Id d) before →
  Key value = Id d →
  resourceSonarqubeWebhookUpdate m (d, w) = (inr tt, (populated value d, w2))
  ∧ Id (populated value d) = Id d
  ∧ Get (populated value d) "key" = Key value
  ∧ Get (populated value d) "name" = Name value
  ∧ Get (populated value d) "url" = URL_ value
  ∧ Get (populated value d) "secret" = Secret value.
Proof.
  intros Hcall Hcall2 Hdecode2 Hlist Hbefore Hkey.
  destruct (populated_fields value d) as (Hid & Hk & Hn & Hu & Hs).
  split_and!; [| by rewrite Hid | done | done | done | done].
  rewrite Update_eq.
  rewrite (httpRequestHelper_answered m (updateRequest m d) w
             StatusNoContent resp w' _ Hcall).
  by apply (Read_found m d w' resp2 w2 getWebhooks before value after).
Qed.

(** X11. When the POST of Update succeeds and the following Read fails
    on its call, Update returns the error of Read as it is, without the
    message Update puts before the error of its own call, and the
    resource data is unchanged. *)
Theorem X11_update_read_failure
    {W} (m : ProviderConfiguration W) d w resp w' w2 :
  answered m (updateRequest m d) w StatusNoContent resp w' →
  refused m (listRequest m d) w' StatusOK w2 →
  ∃ failure,
    resourceSonarqubeWebhookUpdate m (d, w)
    = (inl (requestError "resourceSonarqubeWebhookRead" failure), (d, w2)).
Proof.
  intros Hcall Hrefused. rewrite Update_eq.
  rewrite (httpRequestHelper_answered m (updateRequest m d) w
             StatusNoContent resp w' _ Hcall).
  rewrite Read_eq.
  destruct (httpRequestHelper_refused m (listRequest m d) w' StatusOK w2
              "resourceSonarqubeWebhookRead" Hrefused) as [failure Hhelper].
  cbn [Method Url listRequest] in Hhelper. cbn [Url listRequest].
  rewrite Hhelper. by exists failure.
Qed.

(** *** Delete and Import *)

(** X12. Whatever the server answers, Delete sends the one request POST
    api/webhooks/delete whose query encodes webhook set to the
    identifier, no list request, and leaves the resource data as it is:
    the identifier is not cleared by Delete itself. *)
Theorem X12_delete_one_request_no_mutation
    {W} (m : ProviderConfiguration W) d w :
  requestsOf (λ W', resourceSonarqubeWebhookDelete) m d w = [deleteRequest m d]
  ∧ Method (deleteRequest m d) = "POST"
  ∧ Path (Url (deleteRequest m d)) = "api/webhooks/delete"
  ∧ RawQuery (Url (deleteRequest m d)) = Encode {[ "webhook" := [Id d] ]}
  ∧ dataAfter (resourceSonarqubeWebhookDelete m (d, w)) = d.
Proof.
  split_and!; [apply Delete_requests | done | done | done | apply Delete_data].
Qed.

(** X13. Import of an identifier the list holds returns the one resource
    data with the identifier kept and the four fields copied from the
    first list entry with that key. *)
Theorem X13_import_of_listed_identifier
    {W} (m : ProviderConfiguration W) d w resp w' getWebhooks before value after :
  answered m (listRequest m d) w StatusOK resp w' →
  decodeGetWebhooks (Body resp) = inr getWebhooks →
  Webhooks getWebhooks = (before ++ value :: after)%list →
  Forall (λ x, Key x ≠ Id d) before →
  Key value = Id d →
  resourceSonarqubeWebhookImport m (d, w)
  = (inr [populated value d], (populated value d, w'))
  ∧ Id (populated value d) = Id d
  ∧ Get (populated value d) "name" = Name value
  ∧ Get (populated value d) "url" = URL_ value.
Proof.
  intros Hcall Hdecode Hlist Hbefore Hkey.
  destruct (populated_fields value d) as (Hid & _ & Hn & Hu & _).
  split_and!; [| by rewrite Hid | done | done].
  rewrite Import_eq.
  by rewrite (Read_found m d w resp w' getWebhooks before value after
                Hcall Hdecode Hlist Hbefore Hkey).
Qed.

(** *** All five hooks *)

(** X14. Read, Delete and Import send exactly one request; Create and
    Update send their own request and at most the list request of Read
    after it: no hook makes more than two calls. *)
Theorem X14_at_most_two_calls
    {W} (m : ProviderConfiguration W) d w :
  requestsOf (λ W', resourceSonarqubeWebhookRead) m d w = [listRequest m d]
  ∧ requestsOf (λ W', resourceSonarqubeWebhookDelete) m d w = [deleteRequest m d]
  ∧ requestsOf (λ W', resourceSonarqubeWebhookImport) m d w = [listRequest m d]
  ∧ (requestsOf (λ W', resourceSonarqubeWebhookCreate) m d w = [createRequest m d]
     ∨ requestsOf (λ W', resourceSonarqubeWebhookCreate) m d w
       = [createRequest m d; listRequest m d])
  ∧ (requestsOf (λ W', resourceSonarqubeWebhookUpdate) m d w = [updateRequest m d]
     ∨ requestsOf (λ W', resourceSonarqubeWebhookUpdate) m d w
       = [updateRequest m d; listRequest m d]).
Proof.
  split_and!.
  - apply Read_requests.
  - apply Delete_requests.
  - apply Import_requests.
  - rewrite Create_requests.
    destruct (httpRequestHelper (httpClient m) "POST" (Url (createRequest m d))
                StatusOK "resourceSonarqubeWebhookCreate" w) as [[err | resp] w'];
      [by left |].
    destruct (decodeCreateWebhookResponse (Body resp)) as [err | r]; [by left |].
    destruct (decide (Key (Webhook_ r) = "")); [by left | by right].
  - rewrite Update_recorded.
    by destruct (httpRequestHelper (httpClient m) "POST" (Url (updateRequest m d))
                   StatusNoContent "resourceSonarqubeWebhookUpdate" w)
         as [[err | resp] w']; [left | right].
Qed.

(** X15. No hook, whatever the server answers, changes an attribute
    other than key, name, url and secret; each of these four is declared
    in the schema as a string that does not force a new resource, and
    project, which does, is never written. *)
Theorem X15_hooks_write_only_the_copied_fields
    {W} (m : ProviderConfiguration W) d w :
  sameElsewhere d (dataAfter (resourceSonarqubeWebhookCreate m (d, w)))
  ∧ sameElsewhere d (dataAfter (resourceSonarqubeWebhookRead m (d, w)))
  ∧ sameElsewhere d (dataAfter (resourceSonarqubeWebhookUpdate m (d, w)))
  ∧ sameElsewhere d (dataAfter (resourceSonarqubeWebhookDelete m (d, w)))
  ∧ sameElsewhere d (dataAfter (resourceSonarqubeWebhookImport m (d, w)))
  ∧ (∀ field, field ∈ copiedFields →
       ∃ s, Schema_ (@resourceSonarqubeWebhook Ext W) !! field = Some s ∧
            Type_ s = TypeString ∧ ForceNew s = false)
  ∧ ("project" ∉ copiedFields)
  ∧ (∃ s, Schema_ (@resourceSonarqubeWebhook Ext W) !! "project" = Some s ∧
          ForceNew s = true).
Proof.
  split_and!.
  - apply Create_sameElsewhere.
  - apply Read_sameElsewhere.
  - apply Update_sameElsewhere.
  - rewrite Delete_data. apply sameElsewhere_refl.
  - rewrite Import_data. apply Read_sameElsewhere.
  - intros field Hfield. unfold copiedFields in Hfield.
    repeat (apply elem_of_cons in Hfield as [-> | Hfield];
            [by eexists; split_and!; [reflexivity | |] |]).
    by apply elem_of_nil in Hfield.
  - apply project_not_copied.
  - by eexists; split; [reflexivity |].
Qed.

(** X16. After Read, Update or Import the identifier is the old one or
    empty; Delete keeps it; after Create it is the old one, empty, or the
    non-empty key of the create response. No hook sets another one. *)
Theorem X16_identifier_after_a_hook
    {W} (m : ProviderConfiguration W) d w :
  (Id (dataAfter (resourceSonarqubeWebhookRead m (d, w))) = Id d
   ∨ Id (dataAfter (resourceSonarqubeWebhookRead m (d, w))) = "")
  ∧ (Id (dataAfter (resourceSonarqubeWebhookUpdate m (d, w))) = Id d
     ∨ Id (dataAfter (resourceSonarqubeWebhookUpdate m (d, w))) = "")
  ∧ (Id (dataAfter (resourceSonarqubeWebhookImport m (d, w))) = Id d
     ∨ Id (dataAfter (resourceSonarqubeWebhookImport m (d, w))) = "")
  ∧ Id (dataAfter (resourceSonarqubeWebhookDelete m (d, w))) = Id d
  ∧ (Id (dataAfter (resourceSonarqubeWebhookCreate m (d, w))) = Id d
     ∨ Id (dataAfter (resourceSonarqubeWebhookCreate m (d, w))) = ""
     ∨ ∃ resp w' webhookResponse,
         httpClient m (createRequest m d) w = (inr resp, w') ∧
         decodeCreateWebhookResponse (Body resp) = inr webhookResponse ∧
         Key (Webhook_ webhookResponse) ≠ "" ∧
         Id (dataAfter (resourceSonarqubeWebhookCreate m (d, w)))
         = Key (Webhook_ webhookResponse)).
Proof.
  split_and!.
  - apply Read_identifier.
  - destruct (Update_data m d w) as [-> | [w' ->]]; [by left | apply Read_identifier].
  - rewrite Import_data. apply Read_identifier.
  - by rewrite Delete_data.
  - destruct (Create_data m d w) as [-> | (resp & w' & r & Hcall & Hdecode & Hkey & ->)];
      [by left |].
    destruct (Read_identifier m (SetId (Key (Webhook_ r)) d) w') as [Hid | Hid].
    + right. right. by exists resp, w', r.
    + right. by left.
Qed.

(** X17. What Create and Update send follows the schema. The first
    request of Create has the query that encodes [createParams], the
    first request of Update the one that encodes [updateParams]; in both
    a declared field that is not computed is a parameter exactly when it
    is required or set, the computed key is never one, every parameter
    of Create is a declared field, and Update adds only webhook. *)
Theorem X17_parameters_follow_the_schema
    {W} (m : ProviderConfiguration W) d w :
  (∃ url rest,
     requestsOf (λ W', resourceSonarqubeWebhookCreate) m d w
     = {| Method := "POST"; Url := url |} :: rest ∧
     Path url = "api/webhooks/create" ∧
     RawQuery url = Encode (createParams d))
  ∧ (∃ url rest,
       requestsOf (λ W', resourceSonarqubeWebhookUpdate) m d w
       = {| Method := "POST"; Url := url |} :: rest ∧
       Path url = "api/webhooks/update" ∧
       RawQuery url = Encode (updateParams d))
  ∧ (∀ field s,
       Schema_ (@resourceSonarqubeWebhook Ext W) !! field = Some s →
       (Computed s = true →
          createParams d !! field = None ∧ updateParams d !! field = None)
       ∧ (Computed s = false →
            (is_Some (createParams d !! field)
             ↔ Required s = true ∨ snd (GetOk d field) = true)
            ∧ (is_Some (updateParams d !! field)
               ↔ Required s = true ∨ snd (GetOk d field) = true)))
  ∧ (∀ key, is_Some (createParams d !! key) →
            is_Some (Schema_ (@resourceSonarqubeWebhook Ext W) !! key))
  ∧ (∀ key, is_Some (updateParams d !! key) →
            key = "webhook"
            ∨ is_Some (Schema_ (@resourceSonarqubeWebhook Ext W) !! key)).
Proof.
  destruct (createParams_lookup d) as (Hcn & Hcu & Hcp & Hcs).
  destruct (updateParams_lookup d) as (_ & Hun & Huu & Hup & Hus).
  assert (createParams d !! "key" = None) as Hck.
  { destruct (createParams d !! "key") as [values |] eqn:Hl; [| done].
    assert (is_Some (createParams d !! "key")) as Hsome by (by rewrite Hl).
    apply createParams_keys in Hsome.
    repeat (apply elem_of_cons in Hsome as [[=] | Hsome]).
    by apply elem_of_nil in Hsome. }
  assert (updateParams d !! "key" = None) as Huk.
  { destruct (updateParams d !! "key") as [values |] eqn:Hl; [| done].
    assert (is_Some (updateParams d !! "key")) as Hsome by (by rewrite Hl).
    apply updateParams_keys in Hsome.
    repeat (apply elem_of_cons in Hsome as [[=] | Hsome]).
    by apply elem_of_nil in Hsome. }
  split_and!.
  - exists (Url (createRequest m d)). rewrite Create_requests.
    destruct (httpRequestHelper (httpClient m) "POST" (Url (createRequest m d))
                StatusOK "resourceSonarqubeWebhookCreate" w) as [[err | resp] w'];
      [by eexists |].
    destruct (decodeCreateWebhookResponse (Body resp)) as [err | r]; [by eexists |].
    destruct (decide (Key (Webhook_ r) = "")); by eexists.
  - exists (Url (updateRequest m d)). rewrite Update_recorded.
    by destruct (httpRequestHelper (httpClient m) "POST" (Url (updateRequest m d))
                   StatusNoContent "resourceSonarqubeWebhookUpdate" w)
         as [[err | resp] w']; eexists.
  - intros field s Hs. cbn [resourceSonarqubeWebhook Schema_] in Hs.
    rewrite !lookup_insert, lookup_singleton in Hs.
    repeat case_decide; simplify_eq; cbn [Computed Required].
    + split; [done | discriminate].
    + split; [discriminate | intros _].
      rewrite Hcp, Hup. destruct (snd (GetOk d "project")); split; split;
        first [ by right | by eexists | intros [[=] | [=]] | by intros [? [=]] ].
    + split; [discriminate | intros _].
      rewrite Hcn, Hun. split; split; first [ by left | by eexists ].
    + split; [discriminate | intros _].
      rewrite Hcu, Huu. split; split; first [ by left | by eexists ].
    + split; [discriminate | intros _].
      rewrite Hcs, Hus. destruct (snd (GetOk d "secret")); split; split;
        first [ by right | by eexists | intros [[=] | [=]] | by intros [? [=]] ].
  - intros key Hsome. apply createParams_keys in Hsome.
    repeat (apply elem_of_cons in Hsome as [-> | Hsome]; [by eexists |]).
    by apply elem_of_nil in Hsome.
  - intros key Hsome. apply updateParams_keys in Hsome.
    apply elem_of_cons in Hsome as [-> | Hsome]; [by left |]. right.
    repeat (apply elem_of_cons in Hsome as [-> | Hsome]; [by eexists |]).
    by apply elem_of_nil in Hsome.
Qed.

End FurtherProperties.

(** ** The further properties on the scripted server *)

Section FurtherOnTheScriptedServer.
Import Demo Scenarios.

Lemma X1_witness :
  createParams scoped !! "project" = Some ["my-project"]
  ∧ createParams declared !! "project" = None
  ∧ "name" ∈ ["name"; "url"; "project"; "secret"].
Proof.
  split_and!.
  - exact (proj1 (proj2 (proj2 (proj2 (proj2 (proj2 (proj2
             (@X1_create_request_parameters externals World config scoped [])))))))).
  - exact (proj1 (proj2 (proj2 (proj2 (proj2 (proj2 (proj2
             (@X1_create_request_parameters externals World config declared [])))))))).
  - apply (proj2 (proj2 (proj2 (proj2 (proj2 (proj2 (proj2 (proj2
             (@X1_create_request_parameters externals World config declared []))))))))).
    by eexists.
Defined.

Lemma X2_witness :
  (∃ failure,
     @resourceSonarqubeWebhookCreate externals World config
       (declared, [ok 403 "forbidden"; ok 200 "AV2 AV1"])
     = (inl (@requestError externals "resourceSonarqubeWebhookCreate" failure),
        (declared, [ok 200 "AV2 AV1"])))
  ∧ requestsOf (λ W', @resourceSonarqubeWebhookCreate externals W') config declared
      [ok 403 "forbidden"; ok 200 "AV2 AV1"]
    = [@createRequest externals World config declared].
Proof.
  apply (@X2_create_call_failure externals World config declared
           [ok 403 "forbidden"; ok 200 "AV2 AV1"] [ok 200 "AV2 AV1"]).
  right. exists {| StatusCode := 403; Body := "forbidden" |}.
  split; [reflexivity | discriminate].
Defined.

Lemma X3_witness :
  @resourceSonarqubeWebhookCreate externals World config
    (declared, [ok 200 "created AV1"; ok 200 "AV2"])
  = (inr tt, (SetId "" declared, [])).
Proof.
  apply (@X3_create_key_missing_from_list externals World config declared
           [ok 200 "created AV1"; ok 200 "AV2"]
           {| StatusCode := 200; Body := "created AV1" |} [ok 200 "AV2"]
           {| Webhook_ := hook |}
           {| StatusCode := 200; Body := "AV2" |} [] {| Webhooks := [other] |}).
  - split; reflexivity.
  - reflexivity.
  - discriminate.
  - split; reflexivity.
  - reflexivity.
  - repeat constructor. discriminate.
Defined.

Lemma X4_witness :
  (∃ failure,
     @resourceSonarqubeWebhookCreate externals World config
       (declared, [ok 200 "created AV1"; ok 503 "down"])
     = (inl (@requestError externals "resourceSonarqubeWebhookRead" failure),
        (SetId "AV1" declared, [])))
  ∧ @resourceSonarqubeWebhookCreate externals World config
      (declared, [ok 200 "created AV1"; ok 200 "<html>"])
    = (inl "resourceSonarqubeWebhookRead: Failed to decode json into struct: unexpected end of JSON input",
       (SetId "AV1" declared, [])).
Proof.
  split.
  - apply (proj1 (@X4_create_read_failure_keeps_identifier externals World config
                    declared [ok 200 "created AV1"; ok 503 "down"]
                    {| StatusCode := 200; Body := "created AV1" |} [ok 503 "down"]
                    {| Webhook_ := hook |}
                    (conj eq_refl eq_refl) eq_refl ltac:(discriminate)) []).
    right. exists {| StatusCode := 503; Body := "down" |}.
    split; [reflexivity | discriminate].
  - apply (proj2 (@X4_create_read_failure_keeps_identifier externals World config
                    declared [ok 200 "created AV1"; ok 200 "<html>"]
                    {| StatusCode := 200; Body := "created AV1" |} [ok 200 "<html>"]
                    {| Webhook_ := hook |}
                    (conj eq_refl eq_refl) eq_refl ltac:(discriminate))
             {| StatusCode := 200; Body := "<html>" |} []
             "unexpected end of JSON input").
    + split; reflexivity.
    + reflexivity.
Defined.

Lemma X5_witness :
  ∃ failure,
    @resourceSonarqubeWebhookRead externals World config (present, [])
    = (inl (@requestError externals "resourceSonarqubeWebhookRead" failure),
       (present, [])).
Proof.
  apply (@X5_read_call_failure externals World config present [] []).
  left. by exists "connection refused".
Defined.

Lemma X7_witness :
  @listRequest externals World config
    (dataAfter (@resourceSonarqubeWebhookRead externals World config
                  (present, [ok 200 "AV2 AV1"])))
  = @listRequest externals World config present
  ∧ @resourceSonarqubeWebhookRead externals World config
      (dataAfter (@resourceSonarqubeWebhookRead externals World config
                    (present, [ok 200 "AV2 AV1"])),
       [ok 200 "AV2 AV1"; ok 204 ""])
    = (inr tt,
       (dataAfter (@resourceSonarqubeWebhookRead externals World config
                     (present, [ok 200 "AV2 AV1"])),
        [ok 204 ""])).
Proof.
  apply (@X7_read_idempotent_when_found externals World config present
           [ok 200 "AV2 AV1"] {| StatusCode := 200; Body := "AV2 AV1" |} []
           {| Webhooks := [other; hook] |} [other] hook []
           [ok 200 "AV2 AV1"; ok 204 ""] [ok 204 ""]).
  - split; reflexivity.
  - reflexivity.
  - reflexivity.
  - repeat constructor. discriminate.
  - reflexivity.
  - split; reflexivity.
Defined.

Lemma X8_witness :
  @resourceSonarqubeWebhookRead externals World config (declared, [ok 200 "AV2"])
  = (inr tt, (declared, [])).
Proof.
  apply (@X8_read_of_absent_resource externals World config declared
           [ok 200 "AV2"] {| StatusCode := 200; Body := "AV2" |} []
           {| Webhooks := [other] |}).
  - reflexivity.
  - split; reflexivity.
  - reflexivity.
  - repeat constructor. discriminate.
Defined.

(** The configured secret does not survive a Read whose list entry has
    none: the next update request carries no secret. *)
Lemma X9_witness :
  GetOk scoped "secret" = ("local-secret", true)
  ∧ GetOk (dataAfter (@resourceSonarqubeWebhookRead externals World config
                        (scoped, [ok 200 "AV2 AV1"]))) "secret"
    = ("", false)
  ∧ updateParams (dataAfter (@resourceSonarqubeWebhookRead externals World config
                               (scoped, [ok 200 "AV2 AV1"]))) !! "secret"
    = None
  ∧ GetOk (dataAfter (@resourceSonarqubeWebhookRead externals World config
                        (scoped, [ok 200 "AV2 AV1"]))) "project"
    = ("my-project", true).
Proof.
  split; [reflexivity |].
  apply (@X9_read_replaces_secret externals World config scoped
           [ok 200 "AV2 AV1"] {| StatusCode := 200; Body := "AV2 AV1" |} []
           {| Webhooks := [other; hook] |} [other] hook []).
  - split; reflexivity.
  - reflexivity.
  - reflexivity.
  - repeat constructor. discriminate.
  - reflexivity.
Defined.

Lemma X10_witness :
  @resourceSonarqubeWebhookUpdate externals World config
    (present, [ok 204 ""; ok 200 "AV2 AV1"])
  = (inr tt, (populated hook present, []))
  ∧ Id (populated hook present) = "AV1"
  ∧ Get (populated hook present) "key" = "AV1"
  ∧ Get (populated hook present) "name" = "build-notify"
  ∧ Get (populated hook present) "url" = "https://ci.example/hook"
  ∧ Get (populated hook present) "secret" = "".
Proof.
  apply (@X10_update_takes_fields_from_list externals World config present
           [ok 204 ""; ok 200 "AV2 AV1"]
           {| StatusCode := 204; Body := "" |} [ok 200 "AV2 AV1"]
           {| StatusCode := 200; Body := "AV2 AV1" |} []
           {| Webhooks := [other; hook] |} [other] hook []).
  - split; reflexivity.
  - split; reflexivity.
  - reflexivity.
  - reflexivity.
  - repeat constructor. discriminate.
  - reflexivity.
Defined.

Lemma X11_witness :
  ∃ failure,
    @resourceSonarqubeWebhookUpdate externals World config
      (present, [ok 204 ""; ok 502 "bad gateway"])
    = (inl (@requestError externals "resourceSonarqubeWebhookRead" failure),
       (present, [])).
Proof.
  apply (@X11_update_read_failure externals World config present
           [ok 204 ""; ok 502 "bad gateway"]
           {| StatusCode := 204; Body := "" |} [ok 502 "bad gateway"] []).
  - split; reflexivity.
  - right. exists {| StatusCode := 502; Body := "bad gateway" |}.
    split; [reflexivity | discriminate].
Defined.

Lemma X13_witness :
  @resourceSonarqubeWebhookImport externals World config
    (present, [ok 200 "AV2 AV1"])
  = (inr [populated hook present], (populated hook present, []))
  ∧ Id (populated hook present) = "AV1"
  ∧ Get (populated hook present) "name" = "build-notify"
  ∧ Get (populated hook present) "url" = "https://ci.example/hook".
Proof.
  apply (@X13_import_of_listed_identifier externals World config present
           [ok 200 "AV2 AV1"] {| StatusCode := 200; Body := "AV2 AV1" |} []
           {| Webhooks := [other; hook] |} [other] hook []).
  - split; reflexivity.
  - reflexivity.
  - reflexivity.
  - repeat constructor. discriminate.
  - reflexivity.
Defined.

Lemma X15_witness :
  attrs (dataAfter (@resourceSonarqubeWebhookUpdate externals World config
                      (scoped, [ok 204 ""; ok 200 "AV2 AV1"]))) !! "project"
  = Some "my-project"
  ∧ ∃ s, Schema_ (@resourceSonarqubeWebhook externals World) !! "secret" = Some s ∧
         Type_ s = TypeString ∧ ForceNew s = false.
Proof.
  split.
  - apply (proj1 (proj2 (proj2 (@X15_hooks_write_only_the_copied_fields
                                  externals World config scoped
                                  [ok 204 ""; ok 200 "AV2 AV1"]))) "project").
    unfold copiedFields. rewrite !not_elem_of_cons.
    split_and!; [done | done | done | done | apply not_elem_of_nil].
  - apply (proj1 (proj2 (proj2 (proj2 (proj2 (proj2
             (@X15_hooks_write_only_the_copied_fields externals World config scoped
                [ok 204 ""; ok 200 "AV2 AV1"])))))) "secret").
    unfold copiedFields. do 3 apply list_elem_of_further. apply list_elem_of_here.
Defined.

Lemma X17_witness :
  (is_Some (createParams scoped !! "project")
   ↔ false = true ∨ snd (GetOk scoped "project") = true)
  ∧ is_Some (Schema_ (@resourceSonarqubeWebhook externals World) !! "name").
Proof.
  split.
  - apply (proj1 (proj2 (proj1 (proj2 (proj2
             (@X17_parameters_follow_the_schema externals World config scoped [])))
                           "project"
                           {| Type_ := TypeString; Optional := true; Required := false;
                              Computed := false; ForceNew := true |}
                           eq_refl) eq_refl)).
  - apply (proj1 (proj2 (proj2 (proj2
             (@X17_parameters_follow_the_schema externals World config declared []))))
             "name").
    by eexists.
Defined.

(** A stale identifier on the scripted server: of the four ways Read can
    end, the answer leaves only the last. *)
Lemma X6_witness :
  @resourceSonarqubeWebhookRead externals World config (present, [ok 200 "AV2"])
  = (inr tt, (SetId "" present, [])).
Proof.
  destruct (proj1 (@X6_read_outcomes externals World config present [ok 200 "AV2"]))
    as [(w' & failure & Hrefused & _)
       | [(resp & w' & err & [Hcall _] & Hdecode & _)
         | [(resp & w' & getWebhooks & before & value & after
             & [Hcall _] & Hdecode & Hlist & Hbefore & Hkey & _)
           | (resp & w' & getWebhooks & [Hcall _] & _ & _ & Hrun)]]].
  - exfalso. destruct Hrefused as [[err Hcall] | (resp & Hcall & Hstatus)];
      cbn in Hcall; [discriminate |].
    injection Hcall as <- _. by apply Hstatus.
  - exfalso. cbn in Hcall. injection Hcall as <- _.
    vm_compute in Hdecode. discriminate.
  - exfalso. cbn in Hcall. injection Hcall as <- _.
    vm_compute in Hdecode. injection Hdecode as <-. cbn [Webhooks] in Hlist.
    destruct before as [| x before]; cbn in Hlist.
    + injection Hlist as <- _. discriminate.
    + injection Hlist as _ Hrest. by destruct before.
  - cbn in Hcall. injection Hcall as _ <-. exact Hrun.
Defined.

End FurtherOnTheScriptedServer.
